(** * Pkit: verification of [pkit/core.py] (class [SystemMonitor])

    A shallow embedding of the three operations of [SystemMonitor]
    ([get_disk_info], [check_disk_health], [monitor_system]) and of the
    [log] helper they share.

    The host machine is a parameter.  Every call that asks the outside
    world for something (file system queries, external tools, the clock,
    [psutil], [time.sleep]) is answered by a field of [host] or of
    [tick_env], and may return a value or raise.  What the program does
    to the outside world (printing, creating directories, opening and
    writing files, launching tools, sleeping) is recorded in a
    chronological event trace, and file contents are kept in a store.
    Creating the output directory and creating the three sinks succeed or
    fail as the host decides; appending to a file, printing and the
    logger's own directory and file are taken to succeed, and a launched
    tool is taken to run to completion.

    The [while True] loop of [monitor_system] is observed for a finite
    number of iterations, one [tick_env] each; the observation ends either
    because an iteration raised or because the list is exhausted while the
    loop is still running. *)

From Stdlib Require Import ZArith String Ascii List Bool Lia DecimalString.
From stdpp Require Import base option list gmap strings.
Import ListNotations.

(** ** Python [str] primitives used by the source

    A Rocq [string] stands for a Python [str] whose code points are below
    256. *)
Module Py.

(** [s.startswith(p)] *)
Definition startswith (s p : string) : bool := String.prefix p s.

(** [needle in hay] *)
Fixpoint contains (needle hay : string) {struct hay} : bool :=
  String.prefix needle hay ||
  match hay with
  | EmptyString => false
  | String _ rest => contains needle rest
  end.

(** [s.endswith(suf)] *)
Fixpoint endswith (s suf : string) {struct s} : bool :=
  String.eqb s suf ||
  match s with
  | EmptyString => false
  | String _ rest => endswith rest suf
  end.

(** [s.split(sep)] for a one-character separator. *)
Fixpoint split (sep : ascii) (s : string) : list string :=
  match s with
  | EmptyString => [EmptyString]
  | String a rest =>
      if Ascii.eqb a sep then EmptyString :: split sep rest
      else match split sep rest with
           | x :: xs => String a x :: xs
           | [] => [String a EmptyString]
           end
  end.

(** [s.split(sep, 1)] for a one-character separator. *)
Fixpoint split_once (sep : ascii) (s : string) : list string :=
  match s with
  | EmptyString => [EmptyString]
  | String a rest =>
      if Ascii.eqb a sep then [EmptyString; rest]
      else match split_once sep rest with
           | x :: xs => String a x :: xs
           | [] => [String a EmptyString]
           end
  end.

(** [c.isspace()] on code points below 256. *)
Definition isspace (c : ascii) : bool :=
  match N_of_ascii c with
  | 9 | 10 | 11 | 12 | 13 | 28 | 29 | 30 | 31 | 32 | 133 | 160 => true
  | _ => false
  end%N.

Fixpoint lstrip (s : string) : string :=
  match s with
  | EmptyString => EmptyString
  | String a rest => if isspace a then lstrip rest else s
  end.

Fixpoint rstrip (s : string) : string :=
  match s with
  | EmptyString => EmptyString
  | String a rest =>
      match rstrip rest with
      | EmptyString => if isspace a then EmptyString else String a EmptyString
      | kept => String a kept
      end
  end.

(** [s.strip()] *)
Definition strip (s : string) : string := rstrip (lstrip s).

(** [s.split()]: the maximal runs of non-blank characters. *)
Fixpoint words (s : string) : list string :=
  match s with
  | EmptyString => []
  | String a rest =>
      if isspace a then words rest
      else match rest with
           | EmptyString => [String a EmptyString]
           | String b _ =>
               if isspace b then String a EmptyString :: words rest
               else match words rest with
                    | w :: ws => String a w :: ws
                    | [] => [String a EmptyString]
                    end
           end
  end.

(** The line feed, and the one-character string ["\n"]. *)
Definition LF : ascii := "010"%char.
Definition nl : string := String LF EmptyString.

(** [os.path.join(a, b)] on a POSIX host. *)
Definition path_join (a b : string) : string :=
  if startswith b "/" then b
  else if String.eqb a "" || endswith a "/" then a +:+ b
  else a +:+ "/" +:+ b.

End Py.

(** ** Exceptions, outcomes and the effect monad *)

Inductive exn : Type :=
| AttributeError
| TypeError
| IndexError
| OSError
| FileNotFoundError
| PermissionError
| UnicodeDecodeError
| CalledProcessError
| KeyboardInterrupt.

Inductive outcome (A : Type) : Type :=
| Ret (a : A)
| Raise (e : exn).
Arguments Ret {A} a.
Arguments Raise {A} e.

(** Sequencing of computations that touch nothing outside the
    interpreter. *)
Definition obind {A B} (o : outcome A) (k : A -> outcome B) : outcome B :=
  match o with
  | Ret a => k a
  | Raise e => Raise e
  end.

Notation "'val' x <- o ; k" := (obind o (fun x => k))
  (at level 10, x name, o at level 100, k at level 200,
   format "'[v' 'val'  x  <-  o ; '/' k ']'").

(** [l[i]] *)
Definition item {A} (l : list A) (i : nat) : outcome A :=
  match l !! i with
  | Some x => Ret x
  | None => Raise IndexError
  end.

(** How a handle was opened: ["w"] truncates, ["a"] appends. *)
Inductive mode : Type := ModeW | ModeA.

Inductive event : Type :=
| EvPrint (line : string)
| EvMakedirs (path : string)
| EvOpen (path : string) (m : mode)
| EvWrite (path : string) (m : mode) (text : string)
| EvExec (cmd : list string)
| EvSleep (seconds : Z).

Record world : Type := World {
  fs : gmap string string;     (* contents of the files written so far *)
  trace : list event;          (* everything done, oldest first *)
  clock : nat                  (* how many times the clock was read *)
}.

Definition exec (A : Type) : Type := world -> outcome A * world.

Definition ret {A} (a : A) : exec A := fun w => (Ret a, w).
Definition lift {A} (o : outcome A) : exec A := fun w => (o, w).

Definition bind {A B} (m : exec A) (k : A -> exec B) : exec B :=
  fun w =>
    match m w with
    | (Ret a, w') => k a w'
    | (Raise e, w') => (Raise e, w')
    end.

Notation "'do' x <- m ; k" := (bind m (fun x => k))
  (at level 10, x name, m at level 100, k at level 200,
   format "'[v' 'do'  x  <-  m ; '/' k ']'").
Notation "m ;; k" := (bind m (fun _ => k))
  (at level 100, k at level 200, right associativity).

(** [try: m except: h] (a bare [except] catches every exception). *)
Definition try_except {A} (m : exec A) (h : exec A) : exec A :=
  fun w =>
    match m w with
    | (Ret a, w') => (Ret a, w')
    | (Raise _, w') => h w'
    end.

(** [try: m except E: h] for one exception class. *)
Definition exn_eqb (a b : exn) : bool :=
  match a, b with
  | AttributeError, AttributeError | TypeError, TypeError
  | IndexError, IndexError | OSError, OSError
  | FileNotFoundError, FileNotFoundError | PermissionError, PermissionError
  | UnicodeDecodeError, UnicodeDecodeError
  | CalledProcessError, CalledProcessError
  | KeyboardInterrupt, KeyboardInterrupt => true
  | _, _ => false
  end.

Definition try_except_only {A} (cls : exn) (m : exec A) (h : exec A) : exec A :=
  fun w =>
    match m w with
    | (Ret a, w') => (Ret a, w')
    | (Raise e, w') => if exn_eqb e cls then h w' else (Raise e, w')
    end.

Definition emit (e : event) : exec unit :=
  fun w => (Ret tt, World (fs w) (trace w ++ [e]) (clock w)).

Definition content (store : gmap string string) (path : string) : string :=
  default EmptyString (store !! path).

(** [open(path, "w")]: the file is created or emptied. *)
Definition open_w (path : string) : exec unit :=
  fun w => (Ret tt, World (<[path := EmptyString]> (fs w))
                          (trace w ++ [EvOpen path ModeW]) (clock w)).

(** [open(path, "a")]: the file is created when missing, else kept. *)
Definition open_a (path : string) : exec unit :=
  fun w => (Ret tt, World (<[path := content (fs w) path]> (fs w))
                          (trace w ++ [EvOpen path ModeA]) (clock w)).

(** [f.write(text)] through a handle opened on [path] in mode [m]. *)
Definition write (path : string) (m : mode) (text : string) : exec unit :=
  fun w => (Ret tt, World (<[path := content (fs w) path +:+ text]> (fs w))
                          (trace w ++ [EvWrite path m text]) (clock w)).

(** [subprocess]: what became of a child process. *)
Inductive proc : Type :=
| Exited (status : Z) (stdout : string)
| NotStarted (e : exn).

(** ** The host machine *)
Record host : Type := Host {
  (* datetime.now().strftime("%Y-%m-%d %H:%M:%S") at the k-th reading *)
  strftime_now : nat -> string;
  (* os.path.exists *)
  os_path_exists : string -> bool;
  (* the call os.path.isblock(device); the standard posixpath module
     defines no such attribute, so an unpatched interpreter answers
     Raise AttributeError *)
  os_path_isblock : string -> outcome bool;
  (* os.stat(device).st_size *)
  os_stat_st_size : string -> outcome Z;
  (* the lines of /proc/mounts, or the fault of opening or reading it *)
  proc_mounts : outcome (list string);
  (* running a command line to completion *)
  subprocess : list string -> proc;
  (* bytes.decode() *)
  decode : string -> outcome string;
  (* os.makedirs(path, exist_ok=True) on a non-empty path *)
  os_makedirs : string -> outcome unit;
  (* open(path, "w"): whether the file can be created or emptied *)
  os_creat : string -> outcome unit
}.

(** [os.makedirs(path, exist_ok=True)]; the empty path is refused with
    FileNotFoundError whatever the machine. *)
Definition makedirs (h : host) (path : string) : exec unit :=
  emit (EvMakedirs path) ;;
  if String.eqb path "" then lift (Raise FileNotFoundError)
  else lift (os_makedirs h path).

(** [open(path, "w")] when the host may refuse. *)
Definition create (h : host) (path : string) : exec unit :=
  do _ <- lift (os_creat h path);
  open_w path.

(** The value of [subprocess.check_call(...)] for a child that ended as
    [p]. *)
Definition call_status (p : proc) : outcome Z :=
  match p with
  | Exited 0 _ => Ret 0%Z
  | Exited _ _ => Raise CalledProcessError
  | NotStarted e => Raise e
  end.

(** The value of [subprocess.check_output(...).decode()] for a child that
    ended as [p]. *)
Definition decoded_output (h : host) (p : proc) : outcome string :=
  match p with
  | Exited 0 out => decode h out
  | Exited _ _ => Raise CalledProcessError
  | NotStarted e => Raise e
  end.

Definition check_call (cmd : list string) (p : proc) : exec Z :=
  emit (EvExec cmd) ;; lift (call_status p).

Definition check_output_decode (h : host) (cmd : list string) (p : proc)
  : exec string :=
  emit (EvExec cmd) ;; lift (decoded_output h p).

(** [datetime.now().strftime(...)] *)
Definition timestamp_now (h : host) : exec string :=
  fun w => (Ret (strftime_now h (clock w)),
            World (fs w) (trace w) (S (clock w))).

(** ** class SystemMonitor *)
Record SystemMonitor : Type := {
  script_dir : string;
  logs_dir : string
}.

(** [__init__], given the directory two levels above the module file. *)
Definition init (dir : string) : SystemMonitor :=
  {| script_dir := dir; logs_dir := Py.path_join dir "logs" |}.

Definition log_path (self : SystemMonitor) : string :=
  Py.path_join (logs_dir self) "servertest.log".

Definition log_message (ts level message : string) : string :=
  "[" +:+ ts +:+ "] [" +:+ level +:+ "] " +:+ message.

Definition log (h : host) (self : SystemMonitor) (level message : string)
  : exec unit :=
  do ts <- timestamp_now h;
  let line := log_message ts level message in
  emit (EvPrint line) ;;
  if String.eqb (logs_dir self) "" then ret tt
  else
    emit (EvMakedirs (logs_dir self)) ;;
    open_a (log_path self) ;;
    write (log_path self) ModeA (line +:+ Py.nl).

(** *** check_disk_health *)
Definition check_disk_health (h : host) (self : SystemMonitor)
  (device : string) : exec bool :=
  log h self "INFO" ("Checking health of " +:+ device) ;;
  try_except_only CalledProcessError
    ((if Py.contains "nvme" device
      then check_call ["nvme"; "smart-log"; device]
             (subprocess h ["nvme"; "smart-log"; device])
      else check_call ["smartctl"; "-H"; device]
             (subprocess h ["smartctl"; "-H"; device])) ;;
     ret true)
    (log h self "ERROR" ("Failed to get health status for " +:+ device) ;;
     ret false).

(** *** get_disk_info *)
Record DeviceInfo : Type := {
  size : Z;
  mounted : bool;
  model : string;
  device : string
}.

(** The scan of the [hdparm -I] output: the first line containing the
    marker decides; [model] keeps its value when no line matches. *)
Fixpoint scan_model_number (lines : list string) (model : string)
  : outcome string :=
  match lines with
  | [] => Ret model
  | line :: rest =>
      if Py.contains "Model Number:" line
      then val field <- item (Py.split_once ":"%char line) 1;
           Ret (Py.strip field)
      else scan_model_number rest model
  end.

(** The scan of the [nvme id-ctrl] output. *)
Fixpoint scan_mn (lines : list string) (model : string) : outcome string :=
  match lines with
  | [] => Ret model
  | line :: rest =>
      if Py.startswith line "mn"
      then val field <- item (Py.split_once ":"%char line) 1;
           Ret (Py.strip field)
      else scan_mn rest model
  end.

Definition hdparm_cmd (device : string) : list string :=
  ["hdparm"; "-I"; device].
Definition nvme_id_cmd (device : string) : list string :=
  ["nvme"; "id-ctrl"; device].

(** The model lookup (source lines 37-55).  Each [try] body assigns
    [model] as its last action, so a handler always starts from the
    empty string the variable was initialised with. *)
Definition resolve_model (h : host) (device : string) : exec string :=
  try_except
    (do output <- check_output_decode h (hdparm_cmd device)
                    (subprocess h (hdparm_cmd device));
     lift (scan_model_number (Py.split Py.LF output) ""))
    (if Py.startswith device "/dev/nvme"
     then try_except
            (do output <- check_output_decode h (nvme_id_cmd device)
                            (subprocess h (nvme_id_cmd device));
             lift (scan_mn (Py.split Py.LF output) ""))
            (ret "")
     else ret "").

(** The guarded part of [get_disk_info] (source lines 29-62). *)
Definition disk_info_body (h : host) (device : string)
  : exec (option DeviceInfo) :=
  do size_bytes <- lift (os_stat_st_size h device);
  let size_gb := (size_bytes `div` (1024 ^ 3))%Z in
  do lines <- lift (proc_mounts h);
  let mounted := existsb (Py.contains device) lines in
  do model <- resolve_model h device;
  ret (Some {| size := size_gb; mounted := mounted;
               model := model; device := device |}).

Definition get_disk_info (h : host) (device : string)
  : exec (option DeviceInfo) :=
  if negb (os_path_exists h device) then ret None
  else
    do is_block <- lift (os_path_isblock h device);
    if negb is_block then ret None
    else try_except (disk_info_body h device) (ret None).

(** *** monitor_system *)

(** Python floats stay abstract: how they print and how [/] divides. *)
Class PyFloat (F : Type) : Type := {
  fstr : F -> string;            (* f"{x}" *)
  int_truediv : Z -> Z -> F;     (* n / d on two ints *)
  truediv : F -> Z -> F          (* x / d on a float and an int *)
}.

Record cpu_sample (F : Type) : Type := {
  user : F;
  system : F;
  idle : F
}.
Arguments user {F} _.
Arguments system {F} _.
Arguments idle {F} _.

Record mem_sample : Type := {
  total : Z;
  used : Z;
  free : Z;
  shared : Z;
  buffers : Z;
  cached : Z;
  available : Z
}.

(** What the machine answers during one iteration of the loop. *)
Record tick_env (F : Type) : Type := {
  cpu_times_percent : outcome (cpu_sample F);   (* psutil.cpu_times_percent() *)
  virtual_memory : outcome mem_sample;          (* psutil.virtual_memory() *)
  ipmitool : proc;                              (* ipmitool sdr type fan *)
  sleep : outcome unit                          (* time.sleep(interval) *)
}.
Arguments cpu_times_percent {F} _.
Arguments virtual_memory {F} _.
Arguments ipmitool {F} _.
Arguments sleep {F} _.

Definition cpu_header : string := "Timestamp,User%,System%,Idle%" +:+ Py.nl.
Definition fan_header : string :=
  "Timestamp,FAN1_RPM,FAN2_RPM,FAN3_RPM,FAN4_RPM,FANA_RPM" +:+ Py.nl.
Definition mem_header : string :=
  "Timestamp,Total_Memory_MB,Used_Memory_MB,Free_Memory_MB,Shared_Memory_MB,Buffer_Cache_MB,Available_Memory_MB"
  +:+ Py.nl.

Definition cpu_path (output_dir : string) : string :=
  Py.path_join output_dir "cpu.csv".
Definition fan_path (output_dir : string) : string :=
  Py.path_join output_dir "fan.csv".
Definition mem_path (output_dir : string) : string :=
  Py.path_join output_dir "mem.csv".

Definition ipmitool_cmd : list string := ["ipmitool"; "sdr"; "type"; "fan"].
Definition fan_channels : list string :=
  ["FAN1"; "FAN2"; "FAN3"; "FAN4"; "FANA"].

(** The loop over the lines of the sensor table, filling the dict
    [fans]. *)
Fixpoint parse_fans (lines : list string) (fans : gmap string string)
  : outcome (gmap string string) :=
  match lines with
  | [] => Ret fans
  | line :: rest =>
      if Py.contains "FAN" line && Py.contains "RPM" line
      then
        val name_field <- item (Py.split "|"%char line) 0;
        let fan_name := Py.strip name_field in
        val rpm_field <- item (Py.split "|"%char line) 1;
        val fan_rpm <- item (Py.words (Py.strip rpm_field)) 0;
        parse_fans rest (<[fan_name := fan_rpm]> fans)
      else parse_fans rest fans
  end.

(** [fans.get(fan, '0')] *)
Definition fans_get (fans : gmap string string) (fan : string) : string :=
  default "0" (fans !! fan).

(** [for fan in channels: f.write(f",{fans.get(fan, '0')}")] *)
Fixpoint write_channels (path : string) (fans : gmap string string)
  (channels : list string) : exec unit :=
  match channels with
  | [] => ret tt
  | fan :: rest =>
      write path ModeA ("," +:+ fans_get fans fan) ;;
      write_channels path fans rest
  end.

Section Sampler.
Context {F : Type} `{PyFloat F}.

Definition cpu_row (timestamp : string) (c : cpu_sample F) : string :=
  timestamp +:+ "," +:+ fstr (user c) +:+ "," +:+ fstr (system c)
  +:+ "," +:+ fstr (idle c) +:+ Py.nl.

Definition mb (n : Z) : F := truediv (int_truediv n 1024) 1024.

Definition mem_row (timestamp : string) (m : mem_sample) : string :=
  (timestamp +:+ "," +:+ fstr (mb (total m)) +:+ "," +:+ fstr (mb (used m))
   +:+ ",")
  +:+ (fstr (mb (free m)) +:+ "," +:+ fstr (mb (shared m)) +:+ ",")
  +:+ (fstr (mb (buffers m + cached m)%Z) +:+ ","
       +:+ fstr (mb (available m)) +:+ Py.nl).

(** The best-effort fan step (source lines 108-121). *)
Definition fan_step (h : host) (output_dir timestamp : string)
  (env : tick_env F) : exec unit :=
  do fan_output <- check_output_decode h ipmitool_cmd (ipmitool env);
  do fans <- lift (parse_fans (Py.split Py.LF fan_output) ∅);
  open_a (fan_path output_dir) ;;
  write (fan_path output_dir) ModeA timestamp ;;
  write_channels (fan_path output_dir) fans fan_channels ;;
  write (fan_path output_dir) ModeA Py.nl.

(** One iteration of [while True] (source lines 95-125). *)
Definition tick (h : host) (self : SystemMonitor) (output_dir : string)
  (interval : Z) (env : tick_env F) : exec unit :=
  do timestamp <- timestamp_now h;
  do cpu <- lift (cpu_times_percent env);
  open_a (cpu_path output_dir) ;;
  write (cpu_path output_dir) ModeA (cpu_row timestamp cpu) ;;
  do mem <- lift (virtual_memory env);
  open_a (mem_path output_dir) ;;
  write (mem_path output_dir) ModeA (mem_row timestamp mem) ;;
  try_except (fan_step h output_dir timestamp env)
             (log h self "WARNING" "Failed to get fan information") ;;
  emit (EvSleep interval) ;;
  lift (sleep env).

(** The loop, observed for as many iterations as [ticks] describes:
    [None] when it is still running after them, [Some e] when iteration
    raised [e]. *)
Fixpoint sampling_loop (h : host) (self : SystemMonitor)
  (output_dir : string) (interval : Z) (ticks : list (tick_env F))
  (w : world) : option exn * world :=
  match ticks with
  | [] => (None, w)
  | env :: rest =>
      match tick h self output_dir interval env w with
      | (Ret _, w') => sampling_loop h self output_dir interval rest w'
      | (Raise e, w') => (Some e, w')
      end
  end.

(** Source lines 84-91: the three sinks are created with their headers. *)
Definition create_sinks (h : host) (output_dir : string) : exec unit :=
  makedirs h output_dir ;;
  create h (cpu_path output_dir) ;;
  write (cpu_path output_dir) ModeW cpu_header ;;
  create h (fan_path output_dir) ;;
  write (fan_path output_dir) ModeW fan_header ;;
  create h (mem_path output_dir) ;;
  write (mem_path output_dir) ModeW mem_header.

(** [monitor_system]: [None] while the loop is still running at the end
    of the observation, [Some r] when the call has ended with [r]. *)
Definition monitor_system (h : host) (self : SystemMonitor)
  (output_dir : string) (interval : Z) (ticks : list (tick_env F))
  (w : world) : option (outcome unit) * world :=
  match create_sinks h output_dir w with
  | (Raise e, w1) => (Some (Raise e), w1)
  | (Ret _, w1) =>
      match sampling_loop h self output_dir interval ticks w1 with
      | (None, w2) => (None, w2)
      | (Some KeyboardInterrupt, w2) =>
          let '(r, w3) := log h self "INFO" "Monitoring stopped" w2 in
          (Some r, w3)
      | (Some e, w2) => (Some (Raise e), w2)
      end
  end.

End Sampler.

(** *** __init__ *)

(** [p[:p.rfind('/') + 1]] *)
Fixpoint upto_last_sep (p : string) : string :=
  match p with
  | EmptyString => EmptyString
  | String a rest =>
      if Py.contains "/" rest || Ascii.eqb a "/"
      then String a (upto_last_sep rest)
      else EmptyString
  end.

(** [head == '/' * len(head)] *)
Fixpoint all_sep (head : string) : bool :=
  match head with
  | EmptyString => true
  | String a rest => Ascii.eqb a "/" && all_sep rest
  end.

(** [head.rstrip('/')] *)
Fixpoint rstrip_sep (head : string) : string :=
  match head with
  | EmptyString => EmptyString
  | String a rest =>
      match rstrip_sep rest with
      | EmptyString =>
          if Ascii.eqb a "/" then EmptyString else String a EmptyString
      | kept => String a kept
      end
  end.

(** [os.path.dirname(p)] on a POSIX host. *)
Definition dirname (p : string) : string :=
  let head := upto_last_sep p in
  if negb (String.eqb head "") && negb (all_sep head)
  then rstrip_sep head
  else head.

(** [SystemMonitor()] in an interpreter where [os.path.abspath(__file__)]
    is [module_file]. *)
Definition init_at (module_file : string) : SystemMonitor :=
  init (dirname (dirname module_file)).

(** ** Vocabulary of the statements *)

(** What [os.path.join] puts in front of a relative name. *)
Definition dir_prefix (d : string) : string :=
  if String.eqb d "" || Py.endswith d "/" then d else d +:+ "/".

Fixpoint last_char (s : string) : option ascii :=
  match s with
  | EmptyString => None
  | String a rest =>
      match last_char rest with
      | None => Some a
      | found => found
      end
  end.

(** The store after [text] was appended to [path]. *)
Definition append_to (path text : string) (store : gmap string string)
  : gmap string string :=
  <[path := content store path +:+ text]> store.

(** What one call of [log] leaves in the trace and in the store. *)
Definition log_events (self : SystemMonitor) (ts level message : string)
  : list event :=
  EvPrint (log_message ts level message) ::
  (if String.eqb (logs_dir self) "" then []
   else [EvMakedirs (logs_dir self);
         EvOpen (log_path self) ModeA;
         EvWrite (log_path self) ModeA
           (log_message ts level message +:+ Py.nl)]).

Definition log_store (self : SystemMonitor) (ts level message : string)
  (store : gmap string string) : gmap string string :=
  if String.eqb (logs_dir self) "" then store
  else append_to (log_path self)
         (log_message ts level message +:+ Py.nl) store.

Definition is_exec (e : event) : bool :=
  match e with
  | EvExec _ => true
  | _ => false
  end.

Definition event_path (e : event) : option string :=
  match e with
  | EvOpen p _ | EvWrite p _ _ => Some p
  | _ => None
  end.

Definition event_mode (e : event) : option mode :=
  match e with
  | EvOpen _ m | EvWrite _ m _ => Some m
  | _ => None
  end.



(** [line] is the first of [lines] that passes the test [P]. *)
Definition first_match (P : string -> bool) (lines : list string)
  (line : string) : Prop :=
  exists pre post,
    lines = pre ++ line :: post /\
    Forall (fun l => P l = false) pre /\
    P line = true.

(** [value] is what follows the first colon of [line]. *)
Definition field_after_colon (line value : string) : Prop :=
  exists key,
    line = key +:+ String ":"%char value /\ Py.contains ":" key = false.

(** The text of one fan row. *)
Definition fan_row (timestamp : string) (fans : gmap string string) : string :=
  timestamp +:+ "," +:+ fans_get fans "FAN1" +:+ "," +:+ fans_get fans "FAN2"
  +:+ "," +:+ fans_get fans "FAN3" +:+ "," +:+ fans_get fans "FAN4"
  +:+ "," +:+ fans_get fans "FANA" +:+ Py.nl.

(** The computation [m] only ever extends the trace, and only by events
    that satisfy [P]. *)
Definition emits {A} (P : event -> Prop) (m : exec A) : Prop :=
  forall w, exists t, trace (m w).2 = trace w ++ t /\ Forall P t.

(** No truncating open, no write through a truncating handle. *)
Definition appends_only (e : event) : Prop := event_mode e <> Some ModeW.

(** The computation [m] never shortens a file: whatever it does, every
    file ends up as what it was plus a suffix. *)
Definition appends_files {A} (m : exec A) : Prop :=
  forall w p, exists suffix,
    content (fs (m w).2) p = content (fs w) p +:+ suffix.

(** The startup can go through: the output directory is named and can
    be created, and the three sinks can be opened for writing. *)
Definition sinks_creatable (h : host) (output_dir : string) : Prop :=
  output_dir <> "" /\
  os_makedirs h output_dir = Ret tt /\
  os_creat h (Py.path_join output_dir "cpu.csv") = Ret tt /\
  os_creat h (Py.path_join output_dir "fan.csv") = Ret tt /\
  os_creat h (Py.path_join output_dir "mem.csv") = Ret tt.

(** What the events [t] write to the file [p], in order. *)
Fixpoint written (p : string) (t : list event) : string :=
  match t with
  | [] => EmptyString
  | EvWrite q _ text :: rest =>
      if String.eqb q p then text +:+ written p rest else written p rest
  | _ :: rest => written p rest
  end.



(** Whatever is printed is a fan warning. *)
Definition prints_fan_warnings (e : event) : Prop :=
  forall line, e = EvPrint line ->
    exists ts, line = "[" +:+ ts +:+ "] [WARNING] Failed to get fan information".

(** The texts the loop appends to the sinks: a CPU row, a memory row,
    and the pieces a fan row is written in. *)
Section RowShapes.
Context {F : Type} `{PyFloat F}.

Definition cpu_data_row (h : host) (text : string) : Prop :=
  exists k (c : cpu_sample F),
    text = strftime_now h k +:+ "," +:+ fstr (user c) +:+ ","
           +:+ fstr (system c) +:+ "," +:+ fstr (idle c) +:+ Py.nl.

Definition megabytes (n : Z) : string :=
  fstr (truediv (int_truediv n 1024) 1024).

Definition mem_data_row (h : host) (text : string) : Prop :=
  exists k (m : mem_sample),
    text = strftime_now h k +:+ "," +:+ megabytes (total m) +:+ ","
           +:+ megabytes (used m) +:+ "," +:+ megabytes (free m) +:+ ","
           +:+ megabytes (shared m) +:+ ","
           +:+ megabytes (buffers m + cached m) +:+ ","
           +:+ megabytes (available m) +:+ Py.nl.

Definition fan_piece (h : host) (text : string) : Prop :=
  (exists k, text = strftime_now h k) \/
  (exists reading, text = "," +:+ reading) \/
  text = Py.nl.

End RowShapes.

(** An iteration that runs to its end: both readings are available and
    the sleep returns. *)
Definition completes {F : Type} (env : tick_env F) : Prop :=
  (exists c, cpu_times_percent env = Ret c) /\
  (exists m, virtual_memory env = Ret m) /\
  sleep env = Ret tt.

(** Number of line feeds in a text. *)
Fixpoint count_lf (s : string) : nat :=
  match s with
  | EmptyString => 0
  | String a rest => (if Ascii.eqb a Py.LF then 1 else 0) + count_lf rest
  end.

(** Neither the first nor the last character is blank. *)
Definition trimmed (s : string) : Prop :=
  (forall a rest, s = String a rest -> Py.isspace a = false) /\
  (forall a, last_char s = Some a -> Py.isspace a = false).

(** How many times the events [t] open [p] for appending: one per row. *)
Definition is_append_open (p : string) (e : event) : bool :=
  match e with
  | EvOpen q ModeA => String.eqb q p
  | _ => false
  end.

Definition row_opens (p : string) (t : list event) : nat :=
  length (List.filter (is_append_open p) t).

(** Whether the fan step of an iteration gets as far as writing. *)
Definition fan_reads {F : Type} (h : host) (env : tick_env F) : bool :=
  match decoded_output h (ipmitool env) with
  | Ret out =>
      match parse_fans (Py.split Py.LF out) ∅ with
      | Ret _ => true
      | Raise _ => false
      end
  | Raise _ => false
  end.

(** The events a sampler run may leave: it touches its three sinks and
    the log, creates the output and the log directory, launches the
    sensor tool and sleeps for the interval. *)
Definition sampler_event (self : SystemMonitor) (output_dir : string)
  (interval : Z) (e : event) : Prop :=
  match e with
  | EvPrint _ => True
  | EvMakedirs p => p = output_dir \/ p = logs_dir self
  | EvOpen p _ | EvWrite p _ _ =>
      In p [cpu_path output_dir; fan_path output_dir; mem_path output_dir;
            log_path self]
  | EvExec cmd => cmd = ipmitool_cmd
  | EvSleep s => s = interval
  end.

(** The computation [m] leaves the file [q] as it was. *)
Definition keeps_file {A} (q : string) (m : exec A) : Prop :=
  forall w, content (fs (m w).2) q = content (fs w) q.

(** The computation [m] extends the trace by events that satisfy [P], and
    leaves every file as what it was followed by what those events write
    to it. *)
Definition records {A} (P : event -> Prop) (m : exec A) : Prop :=
  forall w, exists t,
    trace (m w).2 = trace w ++ t /\ Forall P t /\
    forall p, content (fs (m w).2) p = content (fs w) p +:+ written p t.

(** What the loop may leave in the trace: it opens files for appending
    only, and what it appends to a sink is a data piece of that sink. *)
Section LoopEvents.
Context {F : Type} `{PyFloat F}.

Definition loop_event (h : host) (output_dir : string) (e : event) : Prop :=
  match e with
  | EvOpen _ m => m = ModeA
  | EvWrite p m text =>
      m = ModeA /\
      (p = Py.path_join output_dir "cpu.csv" -> cpu_data_row h text) /\
      (p = Py.path_join output_dir "fan.csv" -> fan_piece h text) /\
      (p = Py.path_join output_dir "mem.csv" -> mem_data_row h text)
  | _ => True
  end.

End LoopEvents.

(** ** Concrete machines used in the examples *)

(** An unpatched interpreter on a machine that has the usual device
    nodes and files; no diagnostic tool is installed. *)
Definition stock_host : host := {|
  strftime_now := fun k =>
    "2024-01-01 00:00:" +:+ (if (k <? 10)%nat then "0" else "")
    +:+ NilZero.string_of_uint (Nat.to_uint k);
  os_path_exists := fun p =>
    String.eqb p "/dev/sda" || String.eqb p "/etc/hostname";
  os_path_isblock := fun _ => Raise AttributeError;
  os_stat_st_size := fun _ => Ret 0%Z;
  proc_mounts := Ret ["/dev/sda1 / ext4 rw,relatime 0 0" +:+ Py.nl];
  subprocess := fun _ => NotStarted FileNotFoundError;
  decode := fun s => Ret s;
  os_makedirs := fun _ => Ret tt;
  os_creat := fun _ => Ret tt
|}.

Definition w0 : world := World ∅ [] 0.

(** A float stand-in that counts in whole units. *)
#[local] Instance whole_units : PyFloat Z := {|
  fstr := fun z => NilZero.string_of_int (Z.to_int z) +:+ ".0";
  int_truediv := fun n d => (n `div` d)%Z;
  truediv := fun x d => (x `div` d)%Z
|}.

Definition fan_table : string :=
  "FAN1 | 4200 RPM | ok" +:+ Py.nl +:+
  "FAN2 | 4300 RPM | ok" +:+ Py.nl +:+
  "FANA | 3900 RPM | ok" +:+ Py.nl.

Definition good_tick : tick_env Z := {|
  cpu_times_percent := Ret {| user := 3%Z; system := 1%Z; idle := 96%Z |};
  virtual_memory := Ret {| total := 8589934592; used := 2147483648;
                           free := 4294967296; shared := 0;
                           buffers := 1048576; cached := 1048576;
                           available := 6442450944 |}%Z;
  ipmitool := Exited 0 fan_table;
  sleep := Ret tt
|}.

Definition no_fan_tick : tick_env Z := {|
  cpu_times_percent := cpu_times_percent good_tick;
  virtual_memory := virtual_memory good_tick;
  ipmitool := NotStarted FileNotFoundError;
  sleep := Ret tt
|}.

Definition last_tick : tick_env Z := {|
  cpu_times_percent := cpu_times_percent good_tick;
  virtual_memory := virtual_memory good_tick;
  ipmitool := ipmitool good_tick;
  sleep := Raise KeyboardInterrupt
|}.

(** An interpreter whose [os.path] was given an [isblock] by a test
    harness, with canned answers for the storage tools. *)
Definition lab_host : host := {|
  strftime_now := strftime_now stock_host;
  os_path_exists := fun p =>
    String.eqb p "/dev/sda" || String.eqb p "/dev/nvme0n1"
    || String.eqb p "/etc/hostname";
  os_path_isblock := fun p =>
    Ret (String.eqb p "/dev/sda" || String.eqb p "/dev/nvme0n1");
  os_stat_st_size := fun p =>
    if String.eqb p "/dev/sda" then Ret 500107862016%Z
    else if String.eqb p "/dev/nvme0n1" then Ret 1000204886016%Z
    else Raise FileNotFoundError;
  proc_mounts := Ret ["/dev/sda1 / ext4 rw,relatime 0 0" +:+ Py.nl];
  subprocess := fun cmd =>
    match cmd with
    | ["hdparm"; "-I"; "/dev/sda"] =>
        Exited 0 ("ATA device, with non-removable media" +:+ Py.nl +:+
                  "    Model Number:       WDC WD5000AAKX  " +:+ Py.nl +:+
                  "    Serial Number:      WD-1234" +:+ Py.nl)
    | ["hdparm"; "-I"; _] => Exited 1 ""
    | ["nvme"; "id-ctrl"; "/dev/nvme0n1"] =>
        Exited 0 ("vid       : 0x144d" +:+ Py.nl +:+
                  "mn        : Samsung SSD 970 EVO 1TB" +:+ Py.nl)
    | ["nvme"; "smart-log"; _] => Exited 0 ""
    | ["smartctl"; "-H"; _] => Exited 1 ""
    | _ => NotStarted FileNotFoundError
    end;
  decode := fun s => Ret s;
  os_makedirs := fun _ => Ret tt;
  os_creat := fun _ => Ret tt
|}.

(** A machine with an unreadable disk and an NVMe controller whose
    identify output carries a model line without a colon. *)
Definition odd_host : host := {|
  strftime_now := strftime_now stock_host;
  os_path_exists := fun _ => true;
  os_path_isblock := fun _ => Ret true;
  os_stat_st_size := fun p =>
    if String.eqb p "/dev/sdb" then Raise PermissionError else Ret 268435456%Z;
  proc_mounts := Ret ["/dev/sdc1 /data ext4 rw,relatime 0 0" +:+ Py.nl];
  subprocess := fun cmd =>
    match cmd with
    | ["nvme"; "id-ctrl"; _] =>
        Exited 0 ("vid : 0x144d" +:+ Py.nl +:+ "mn SAMSUNG" +:+ Py.nl +:+
                  "mn : never read" +:+ Py.nl)
    | _ => NotStarted FileNotFoundError
    end;
  decode := fun s => Ret s;
  os_makedirs := fun _ => Ret tt;
  os_creat := fun _ => Ret tt
|}.

Definition cpu_fault_tick : tick_env Z := {|
  cpu_times_percent := Raise OSError;
  virtual_memory := virtual_memory good_tick;
  ipmitool := ipmitool good_tick;
  sleep := Ret tt
|}.

Definition mem_fault_tick : tick_env Z := {|
  cpu_times_percent := cpu_times_percent good_tick;
  virtual_memory := Raise OSError;
  ipmitool := ipmitool good_tick;
  sleep := Ret tt
|}.

(** The stop signal arrives while the sensor tool is running. *)
Definition signal_in_fan_tick : tick_env Z := {|
  cpu_times_percent := cpu_times_percent good_tick;
  virtual_memory := virtual_memory good_tick;
  ipmitool := NotStarted KeyboardInterrupt;
  sleep := Ret tt
|}.

(** One sensor line lost its column separators. *)
Definition torn_table_tick : tick_env Z := {|
  cpu_times_percent := cpu_times_percent good_tick;
  virtual_memory := virtual_memory good_tick;
  ipmitool := Exited 0 ("FAN1 | 4200 RPM | ok" +:+ Py.nl +:+
                        "FAN2 4300 RPM ok" +:+ Py.nl);
  sleep := Ret tt
|}.


(** ** Facts about the string primitives *)
Module PyFacts.
Import Py.

Lemma str_app_cons (a : ascii) (s t : string) :
  String a s +:+ t = String a (s +:+ t).
Proof. reflexivity. Qed.

Lemma str_app_empty_l (t : string) : "" +:+ t = t.
Proof. reflexivity. Qed.

Lemma str_app_empty_r (s : string) : s +:+ "" = s.
Proof. induction s as [|a s IH]; [reflexivity|]. now rewrite str_app_cons, IH. Qed.

Lemma str_app_assoc (s t u : string) : (s +:+ t) +:+ u = s +:+ (t +:+ u).
Proof.
  induction s as [|a s IH]; [reflexivity|].
  now rewrite !str_app_cons, IH.
Qed.

(** [prefix] decides "begins with". *)
Lemma prefix_iff (p s : string) :
  String.prefix p s = true <-> exists post, s = p +:+ post.
Proof.
  revert s. induction p as [|a p IH]; intros s.
  - split; [intros _; exists s; reflexivity|].
    intros _. now destruct s.
  - destruct s as [|b s]; simpl.
    + split; [discriminate|]. intros [post Hp]. discriminate Hp.
    + destruct (ascii_dec a b) as [->|Hne].
      * rewrite IH. split; intros [post Hp]; exists post.
        -- now rewrite str_app_cons, Hp.
        -- rewrite str_app_cons in Hp. now inversion Hp.
      * split; [discriminate|]. intros [post Hp].
        rewrite str_app_cons in Hp. inversion Hp. congruence.
Qed.

Lemma contains_nil (needle : string) :
  contains needle "" = String.prefix needle "" || false.
Proof. reflexivity. Qed.

Lemma contains_cons (needle : string) (b : ascii) (hay : string) :
  contains needle (String b hay) =
  String.prefix needle (String b hay) || contains needle hay.
Proof. reflexivity. Qed.

(** [contains] decides "occurs as a substring". *)
Lemma contains_iff (needle hay : string) :
  contains needle hay = true <->
  exists pre post, hay = pre +:+ needle +:+ post.
Proof.
  induction hay as [|b hay IH].
  - rewrite contains_nil, orb_false_r, prefix_iff. split.
    + intros [post Hp]. now exists "", post.
    + intros (pre & post & Hp).
      destruct pre; [now exists post|discriminate Hp].
  - rewrite contains_cons, orb_true_iff, IH, prefix_iff. split.
    + intros [[post Hp]|(pre & post & Hp)].
      * now exists "", post.
      * exists (String b pre), post. now rewrite str_app_cons, Hp.
    + intros (pre & post & Hp). destruct pre as [|c pre].
      * left. now exists post.
      * right. rewrite str_app_cons in Hp. inversion Hp. now exists pre, post.
Qed.

Lemma prefix_single (sep a : ascii) (s : string) :
  String.prefix (String sep "") (String a s) =
  if ascii_dec sep a then true else false.
Proof. simpl. destruct (ascii_dec sep a); [now destruct s|reflexivity]. Qed.

Lemma contains_single_cons (sep a : ascii) (s : string) :
  contains (String sep "") (String a s) =
  (if ascii_dec sep a then true else false) || contains (String sep "") s.
Proof. now rewrite contains_cons, prefix_single. Qed.

(** Splitting at the first separator: both shapes of the result. *)
Lemma split_once_shape (sep : ascii) (s : string) :
  (split_once sep s = [s] /\
   contains (String sep "") s = false) \/
  (exists key value,
      split_once sep s = [key; value] /\
      s = key +:+ String sep value /\
      contains (String sep "") key = false).
Proof.
  induction s as [|a s IH].
  - left. now split.
  - cbn [split_once]. rewrite contains_single_cons.
    destruct (Ascii.eqb_spec a sep) as [->|Hne].
    + right. exists "", s. repeat split; reflexivity.
    + destruct (ascii_dec sep a) as [->|_]; [congruence|].
      rewrite orb_false_l.
      destruct IH as [[Hs Hc]|(key & value & Hs & Heq & Hc)].
      * left. rewrite Hs. now split.
      * right. exists (String a key), value. rewrite Hs.
        repeat split.
        -- now rewrite str_app_cons, <- Heq.
        -- rewrite contains_single_cons.
           destruct (ascii_dec sep a); [congruence|]. exact Hc.
Qed.

(** The decomposition of a string at its first separator is unique. *)
Lemma first_sep_unique (sep : ascii) (k1 v1 k2 v2 : string) :
  k1 +:+ String sep v1 = k2 +:+ String sep v2 ->
  contains (String sep "") k1 = false ->
  contains (String sep "") k2 = false ->
  k1 = k2 /\ v1 = v2.
Proof.
  revert k2. induction k1 as [|a k1 IH]; intros k2 Heq H1 H2.
  - destruct k2 as [|b k2]; [now inversion Heq|].
    rewrite str_app_empty_l, str_app_cons in Heq. inversion Heq; subst b.
    rewrite contains_single_cons in H2.
    destruct (ascii_dec sep sep); [discriminate H2|congruence].
  - destruct k2 as [|b k2].
    + rewrite str_app_empty_l, str_app_cons in Heq. inversion Heq; subst a.
      rewrite contains_single_cons in H1.
      destruct (ascii_dec sep sep); [discriminate H1|congruence].
    + rewrite !str_app_cons in Heq. inversion Heq; subst b.
      rewrite contains_single_cons in H1, H2.
      apply orb_false_iff in H1 as [_ H1].
      apply orb_false_iff in H2 as [_ H2].
      destruct (IH k2 H3 H1 H2) as [-> ->]. now split.
Qed.

End PyFacts.

(** ** Paths of the sinks and of the log *)
Section Paths.
Import Py.

Lemma path_join_relative (d b : string) :
  startswith b "/" = false -> path_join d b = dir_prefix d +:+ b.
Proof.
  intros Hb. unfold path_join, dir_prefix. rewrite Hb.
  destruct (String.eqb d "" || endswith d "/"); [reflexivity|].
  now rewrite PyFacts.str_app_assoc.
Qed.

Lemma last_char_nonempty (t : string) :
  t <> "" -> exists c, last_char t = Some c.
Proof.
  induction t as [|a t IH]; [congruence|]. intros _. cbn [last_char].
  destruct (last_char t); eauto.
Qed.

Lemma last_char_app (s t : string) :
  t <> "" -> last_char (s +:+ t) = last_char t.
Proof.
  intros Ht. induction s as [|a s IH]; [reflexivity|].
  rewrite PyFacts.str_app_cons. cbn [last_char]. rewrite IH.
  destruct (last_char_nonempty t Ht) as [c ->]. reflexivity.
Qed.

(** The logger of a constructed monitor always has a log directory. *)
Lemma init_logs_dir_nonempty (dir : string) : logs_dir (init dir) <> "".
Proof.
  unfold init. cbn [logs_dir]. rewrite path_join_relative by reflexivity.
  intros Heq. apply (f_equal last_char) in Heq.
  rewrite last_char_app in Heq by discriminate. discriminate Heq.
Qed.

Lemma sink_paths_distinct (d : string) :
  cpu_path d <> fan_path d /\ cpu_path d <> mem_path d /\
  fan_path d <> mem_path d.
Proof.
  unfold cpu_path, fan_path, mem_path.
  rewrite !path_join_relative by reflexivity.
  repeat split; intros Heq; apply (inj (String.app _)) in Heq;
    discriminate Heq.
Qed.

Lemma log_path_not_sink (self : SystemMonitor) (d : string) :
  log_path self <> cpu_path d /\ log_path self <> fan_path d /\
  log_path self <> mem_path d.
Proof.
  unfold log_path, cpu_path, fan_path, mem_path.
  rewrite !path_join_relative by reflexivity.
  repeat split; intros Heq; apply (f_equal last_char) in Heq;
    rewrite !last_char_app in Heq by discriminate; discriminate Heq.
Qed.

End Paths.

(** ** The store and the logger *)
Section Store.
Implicit Types (store : gmap string string) (p q text : string).

Lemma content_append_same store p text :
  content (append_to p text store) p = content store p +:+ text.
Proof. unfold append_to, content. now rewrite lookup_insert_eq. Qed.

Lemma content_append_other store p q text :
  p <> q -> content (append_to p text store) q = content store q.
Proof.
  intros Hne. unfold append_to, content. now rewrite lookup_insert_ne.
Qed.

Lemma open_then_write store p text :
  <[p := content (<[p := content store p]> store) p +:+ text]>
    (<[p := content store p]> store) = append_to p text store.
Proof.
  unfold append_to, content at 1.
  now rewrite lookup_insert_eq, insert_insert_eq.
Qed.

Lemma content_log_store_other self ts level message store q :
  q <> log_path self ->
  content (log_store self ts level message store) q = content store q.
Proof.
  intros Hne. unfold log_store.
  destruct (String.eqb (logs_dir self) ""); [reflexivity|].
  now apply content_append_other.
Qed.

End Store.

Lemma log_run (h : host) (self : SystemMonitor) (level message : string)
  (w : world) :
  log h self level message w =
  (Ret tt,
   World (log_store self (strftime_now h (clock w)) level message (fs w))
         (trace w ++ log_events self (strftime_now h (clock w)) level message)
         (S (clock w))).
Proof.
  unfold log, log_events, log_store, bind, timestamp_now, emit, open_a,
    write, ret. cbn.
  destruct (String.eqb (logs_dir self) ""); cbn.
  - reflexivity.
  - rewrite open_then_write. now rewrite <- !app_assoc.
Qed.

Lemma log_events_no_exec (self : SystemMonitor) (ts level message : string) :
  List.filter is_exec (log_events self ts level message) = [].
Proof.
  unfold log_events. now destruct (String.eqb (logs_dir self) "").
Qed.

(** ** check_disk_health *)

(** The whole call, by what became of the tool. *)
Lemma check_disk_health_run (h : host) (self : SystemMonitor)
  (device : string) (w : world) :
  let cmd := if Py.contains "nvme" device
             then ["nvme"; "smart-log"; device]
             else ["smartctl"; "-H"; device] in
  let launched :=
    World (log_store self (strftime_now h (clock w)) "INFO"
             ("Checking health of " +:+ device) (fs w))
          (trace w ++
           log_events self (strftime_now h (clock w)) "INFO"
             ("Checking health of " +:+ device) ++ [EvExec cmd])
          (S (clock w)) in
  check_disk_health h self device w =
  match call_status (subprocess h cmd) with
  | Ret _ => (Ret true, launched)
  | Raise e =>
      if exn_eqb e CalledProcessError
      then (Ret false,
            World (log_store self (strftime_now h (S (clock w))) "ERROR"
                     ("Failed to get health status for " +:+ device)
                     (fs launched))
                  (trace launched ++
                   log_events self (strftime_now h (S (clock w))) "ERROR"
                     ("Failed to get health status for " +:+ device))
                  (S (S (clock w))))
      else (Raise e, launched)
  end.
Proof.
  cbv zeta. unfold check_disk_health, bind at 1. rewrite log_run.
  unfold try_except_only, check_call, bind, emit, lift, ret.
  destruct (Py.contains "nvme" device); cbn [fs trace clock];
    match goal with
    | |- context [call_status ?p] => destruct (call_status p) as [z|e]
    end;
    [|destruct (exn_eqb e CalledProcessError); [rewrite log_run|]| |
      destruct (exn_eqb e CalledProcessError); [rewrite log_run|]];
    cbn [fs trace clock]; now rewrite <- ?app_assoc.
Qed.

Lemma exn_eqb_neq (e cls : exn) : e <> cls -> exn_eqb e cls = false.
Proof. destruct e, cls; intros Hne; try reflexivity; congruence. Qed.

(** C3: the NVMe smart-log tool is launched exactly when "nvme" occurs
    somewhere in the path, the SMART tool otherwise, and nothing else is
    launched (the host is never asked whether the device exists); the
    result is [True] exactly when the launched tool exits with status
    zero; on a non-zero exit the result is [False] and the entry
    "[ts] [ERROR] Failed to get health status for {device}" is printed and
    appended to the log after the INFO entry. *)
Theorem check_disk_health_dispatch (h : host) (dir device : string)
  (w : world) :
  let self := init dir in
  let info_line :=
    "[" +:+ strftime_now h (clock w) +:+ "] [INFO] Checking health of "
    +:+ device in
  let error_line :=
    "[" +:+ strftime_now h (S (clock w))
    +:+ "] [ERROR] Failed to get health status for " +:+ device in
  let logged line :=
    [EvPrint line; EvMakedirs (logs_dir self); EvOpen (log_path self) ModeA;
     EvWrite (log_path self) ModeA (line +:+ Py.nl)] in
  let r := (check_disk_health h self device w).1 in
  let w' := (check_disk_health h self device w).2 in
  exists cmd,
    ((exists pre post, device = pre +:+ "nvme" +:+ post) ->
     cmd = ["nvme"; "smart-log"; device])
    /\ (~ (exists pre post, device = pre +:+ "nvme" +:+ post) ->
        cmd = ["smartctl"; "-H"; device])
    /\ List.filter is_exec (trace w') =
       List.filter is_exec (trace w) ++ [EvExec cmd]
    /\ (r = Ret true <-> exists out, subprocess h cmd = Exited 0 out)
    /\ (r = Ret true ->
        trace w' = trace w ++ logged info_line ++ [EvExec cmd]
        /\ content (fs w') (log_path self) =
           content (fs w) (log_path self) +:+ info_line +:+ Py.nl)
    /\ (forall status out,
          subprocess h cmd = Exited status out -> status <> 0%Z ->
          r = Ret false
          /\ trace w' =
             trace w ++ logged info_line ++ [EvExec cmd] ++ logged error_line
          /\ content (fs w') (log_path self) =
             content (fs w) (log_path self) +:+ info_line +:+ Py.nl
             +:+ error_line +:+ Py.nl).
Proof.
  cbv zeta.
  exists (if Py.contains "nvme" device
          then ["nvme"; "smart-log"; device]
          else ["smartctl"; "-H"; device]).
  split; [|split].
  { intros Hsub. apply PyFacts.contains_iff in Hsub. now rewrite Hsub. }
  { intros Hsub. destruct (Py.contains "nvme" device) eqn:Hc; [|reflexivity].
    apply PyFacts.contains_iff in Hc. contradiction. }
  rewrite check_disk_health_run. cbv zeta.
  set (cmd := if Py.contains "nvme" device then _ else _).
  pose proof (proj2 (String.eqb_neq _ _) (init_logs_dir_nonempty dir)) as Hdir.
  unfold log_events, log_store, log_message. rewrite Hdir.
  destruct (subprocess h cmd) as [st out|e].
  - destruct (Z.eq_dec st 0%Z) as [->|Hst].
    + cbn [call_status fst snd fs trace].
      split; [|split; [|split]].
      * rewrite !List.filter_app. cbn [List.filter is_exec app].
        now rewrite ?app_nil_r.
      * split; eauto.
      * intros _. split; [now rewrite <- ?app_assoc|].
        apply content_append_same.
      * intros st out' [= <- _] Hne. congruence.
    + assert (Hcs : call_status (Exited st out) = Raise CalledProcessError).
      { destruct st; [congruence|reflexivity..]. }
      rewrite Hcs. cbn [exn_eqb fst snd fs trace].
      split; [|split; [|split]].
      * rewrite !List.filter_app. cbn [List.filter is_exec app].
        now rewrite ?app_nil_r.
      * split; [discriminate|]. intros [out' [= -> _]]. congruence.
      * discriminate.
      * intros _ _ _ _. split; [reflexivity|].
        split; [now rewrite <- ?app_assoc|].
        now rewrite !content_append_same, ?PyFacts.str_app_assoc.
  - cbn [call_status]. destruct (exn_eqb e CalledProcessError);
      cbn [fst snd fs trace];
      (split;
       [rewrite !List.filter_app; cbn [List.filter is_exec app];
        now rewrite ?app_nil_r|]);
      (split; [split; [discriminate|intros [out' [=]]]|]);
      (split; [discriminate|intros st out' [=]]).
Qed.

Lemma check_disk_health_dispatch_witness :
  (List.filter is_exec
     (trace (check_disk_health lab_host (init "/opt/pkit") "/dev/nvme0n1"
               w0).2)
   = [EvExec ["nvme"; "smart-log"; "/dev/nvme0n1"]]
   /\ (check_disk_health lab_host (init "/opt/pkit") "/dev/nvme0n1" w0).1
      = Ret true)
  /\ (List.filter is_exec
        (trace (check_disk_health lab_host (init "/opt/pkit") "/dev/sda"
                  w0).2)
      = [EvExec ["smartctl"; "-H"; "/dev/sda"]]
      /\ (check_disk_health lab_host (init "/opt/pkit") "/dev/sda" w0).1
         = Ret false
      /\ content
           (fs (check_disk_health lab_host (init "/opt/pkit") "/dev/sda"
                  w0).2) "/opt/pkit/logs/servertest.log"
         = "[2024-01-01 00:00:00] [INFO] Checking health of /dev/sda"
           +:+ Py.nl +:+
           "[2024-01-01 00:00:01] [ERROR] Failed to get health status for /dev/sda"
           +:+ Py.nl).
Proof.
  split.
  - destruct (check_disk_health_dispatch lab_host "/opt/pkit" "/dev/nvme0n1"
                w0) as (cmd & Hnvme & _ & Hexec & Htrue & _).
    rewrite (Hnvme (ex_intro _ "/dev/" (ex_intro _ "0n1" eq_refl)))
      in Hexec, Htrue.
    split; [exact Hexec|]. apply Htrue. eexists. reflexivity.
  - destruct (check_disk_health_dispatch lab_host "/opt/pkit" "/dev/sda" w0)
      as (cmd & _ & Hsmart & Hexec & _ & _ & Hfail).
    assert (Hno : ~ (exists pre post, "/dev/sda" = pre +:+ "nvme" +:+ post)).
    { intros Hsub. apply PyFacts.contains_iff in Hsub. discriminate Hsub. }
    rewrite (Hsmart Hno) in Hexec, Hfail.
    split; [exact Hexec|].
    destruct (Hfail 1%Z "" eq_refl ltac:(lia)) as (Hr & _ & Hlog).
    split; [exact Hr|exact Hlog].
Defined.

(** ** get_disk_info: the guard *)

Lemma get_disk_info_missing_path (h : host) (dev : string) (w : world) :
  os_path_exists h dev = false -> get_disk_info h dev w = (Ret None, w).
Proof. intros Hex. unfold get_disk_info. now rewrite Hex. Qed.

Lemma get_disk_info_not_block (h : host) (dev : string) (w : world) :
  os_path_exists h dev = true -> os_path_isblock h dev = Ret false ->
  get_disk_info h dev w = (Ret None, w).
Proof.
  intros Hex Hblk. unfold get_disk_info, bind, lift.
  now rewrite Hex, Hblk.
Qed.

(** A fault of the guard is outside every [try]. *)
Lemma get_disk_info_guard_fault (h : host) (dev : string) (e : exn)
  (w : world) :
  os_path_exists h dev = true -> os_path_isblock h dev = Raise e ->
  get_disk_info h dev w = (Raise e, w).
Proof.
  intros Hex Hblk. unfold get_disk_info, bind, lift.
  now rewrite Hex, Hblk.
Qed.

Lemma get_disk_info_past_guard (h : host) (dev : string) (w : world) :
  os_path_exists h dev = true -> os_path_isblock h dev = Ret true ->
  get_disk_info h dev w = try_except (disk_info_body h dev) (ret None) w.
Proof.
  intros Hex Hblk. unfold get_disk_info, bind, lift.
  now rewrite Hex, Hblk.
Qed.

(** Once past the guard nothing escapes: the outer bare [except] turns
    every fault into [None]. *)
Lemma get_disk_info_body_never_raises (h : host) (dev : string) (w : world) :
  os_path_exists h dev = true -> os_path_isblock h dev = Ret true ->
  exists r w', get_disk_info h dev w = (Ret r, w').
Proof.
  intros Hex Hblk. rewrite get_disk_info_past_guard by assumption.
  unfold try_except, ret.
  destruct (disk_info_body h dev w) as [[r|e] w']; eauto.
Qed.

(** C1: on an unpatched interpreter an existing path that is not a block
    special file (here the regular file /etc/hostname) does not yield
    absence: the guard's [os.path.isblock] raises AttributeError, which
    sits outside the [try] and reaches the caller. *)
Theorem get_disk_info_regular_file_raises :
  os_path_exists stock_host "/etc/hostname" = true /\
  os_path_isblock stock_host "/etc/hostname" = Raise AttributeError /\
  get_disk_info stock_host "/etc/hostname" w0 = (Raise AttributeError, w0).
Proof. repeat split; reflexivity. Qed.

(** C2: a fault of the guard is not collapsed to absence: on an
    unpatched interpreter every existing path, even a real block device,
    makes [get_disk_info] raise AttributeError to its caller. *)
Theorem get_disk_info_propagates_guard_fault :
  get_disk_info stock_host "/dev/sda" w0 = (Raise AttributeError, w0) /\
  (forall (h : host) (dev : string) (e : exn) (w : world),
      os_path_exists h dev = true -> os_path_isblock h dev = Raise e ->
      (get_disk_info h dev w).1 = Raise e).
Proof.
  split; [reflexivity|].
  intros h dev e w Hex Hblk.
  now rewrite (get_disk_info_guard_fault h dev e w Hex Hblk).
Qed.

Lemma get_disk_info_propagates_guard_fault_witness :
  (get_disk_info stock_host "/etc/hostname" w0).1 = Raise AttributeError.
Proof.
  apply (proj2 get_disk_info_propagates_guard_fault stock_host
           "/etc/hostname" AttributeError w0); reflexivity.
Defined.

(** ** get_disk_info: the record *)

(** Whenever a record is returned, it was built from the answers of the
    host in the way the body prescribes. *)
Lemma get_disk_info_some_inv (h : host) (dev : string) (w w' : world)
  (info : DeviceInfo) :
  get_disk_info h dev w = (Ret (Some info), w') ->
  exists bytes lines m,
    os_path_exists h dev = true /\
    os_path_isblock h dev = Ret true /\
    os_stat_st_size h dev = Ret bytes /\
    proc_mounts h = Ret lines /\
    (resolve_model h dev w).1 = Ret m /\
    info = {| size := (bytes `div` 1024 ^ 3)%Z;
              mounted := existsb (Py.contains dev) lines;
              model := m; device := dev |}.
Proof.
  unfold get_disk_info, bind, lift.
  destruct (os_path_exists h dev) eqn:Hex; cbn [negb]; [|discriminate].
  destruct (os_path_isblock h dev) as [[|]|e] eqn:Hblk; cbn [negb];
    [|discriminate..].
  unfold try_except, disk_info_body, bind, lift, ret.
  destruct (os_stat_st_size h dev) as [bytes|e]; [|discriminate].
  destruct (proc_mounts h) as [lines|e]; [|discriminate].
  destruct (resolve_model h dev w) as [[m|e] w1] eqn:Hm; [|discriminate].
  intros [= <- _]. exists bytes, lines, m. now rewrite ?Hm.
Qed.

(** C7: the [size] field is the byte size floor-divided by 2^30. *)
Theorem get_disk_info_size (h : host) (dev : string) (w w' : world)
  (info : DeviceInfo) (bytes : Z) :
  get_disk_info h dev w = (Ret (Some info), w') ->
  os_stat_st_size h dev = Ret bytes ->
  size info = (bytes `div` 2 ^ 30)%Z /\
  (2 ^ 30 * size info <= bytes < 2 ^ 30 * size info + 2 ^ 30)%Z.
Proof.
  intros Hrun Hst.
  destruct (get_disk_info_some_inv _ _ _ _ _ Hrun)
    as (b & lines & m & _ & _ & Hb & _ & _ & ->).
  rewrite Hst in Hb. injection Hb as <-. cbn [size].
  change (1024 ^ 3)%Z with (2 ^ 30)%Z.
  split; [reflexivity|].
  pose proof (Z.div_mod bytes (2 ^ 30) ltac:(lia)) as Hdm.
  pose proof (Z.mod_pos_bound bytes (2 ^ 30) ltac:(lia)) as Hmod.
  lia.
Qed.

Lemma get_disk_info_size_witness :
  size {| size := 465; mounted := true; model := "WDC WD5000AAKX";
          device := "/dev/sda" |} = (500107862016 `div` 2 ^ 30)%Z.
Proof.
  apply (get_disk_info_size lab_host "/dev/sda" w0
           (World ∅ [EvExec (hdparm_cmd "/dev/sda")] 0)); reflexivity.
Defined.

(** C6: [mounted] is true exactly when the device path occurs inside
    some line of the mount table; a table that only lists the partition
    /dev/sda1 therefore reports the disk /dev/sda as mounted. *)
Theorem get_disk_info_mounted :
  (forall (h : host) (dev : string) (w w' : world) (info : DeviceInfo)
          (lines : list string),
      get_disk_info h dev w = (Ret (Some info), w') ->
      proc_mounts h = Ret lines ->
      (mounted info = true <->
       exists line pre post, In line lines /\ line = pre +:+ dev +:+ post))
  /\ (proc_mounts lab_host = Ret ["/dev/sda1 / ext4 rw,relatime 0 0" +:+ Py.nl]
      /\ exists info w',
           get_disk_info lab_host "/dev/sda" w0 = (Ret (Some info), w') /\
           mounted info = true).
Proof.
  split.
  - intros h dev w w' info lines Hrun Hmt.
    destruct (get_disk_info_some_inv _ _ _ _ _ Hrun)
      as (b & ls & m & _ & _ & _ & Hls & _ & ->).
    rewrite Hmt in Hls. injection Hls as <-. cbn [mounted].
    rewrite existsb_exists. split.
    + intros (line & Hin & Hc). apply PyFacts.contains_iff in Hc
        as (pre & post & Hc). eauto.
    + intros (line & pre & post & Hin & Hc). exists line. split; [exact Hin|].
      apply PyFacts.contains_iff. eauto.
  - split; [reflexivity|]. eexists _, _. split; reflexivity.
Qed.

Lemma get_disk_info_mounted_witness :
  mounted {| size := 465; mounted := true; model := "WDC WD5000AAKX";
             device := "/dev/sda" |} = true <->
  exists line pre post,
    In line ["/dev/sda1 / ext4 rw,relatime 0 0" +:+ Py.nl] /\
    line = pre +:+ "/dev/sda" +:+ post.
Proof.
  apply (proj1 get_disk_info_mounted lab_host "/dev/sda" w0
           (World ∅ [EvExec (hdparm_cmd "/dev/sda")] 0)); reflexivity.
Defined.

(** ** get_disk_info: the model *)

Lemma item_field (line value : string) :
  field_after_colon line value ->
  item (Py.split_once ":"%char line) 1 = Ret value.
Proof.
  intros (key & Hline & Hkey).
  destruct (PyFacts.split_once_shape ":"%char line)
    as [[_ Hno]|(k & v & Hs & Heq & Hk)].
  - assert (Hyes : Py.contains ":" line = true).
    { apply PyFacts.contains_iff. exists key, value. exact Hline. }
    congruence.
  - rewrite Hs. rewrite Hline in Heq.
    destruct (PyFacts.first_sep_unique _ _ _ _ _ Heq Hkey Hk) as [_ ->].
    reflexivity.
Qed.

(** A line that carries the marker has a colon, hence a field. *)
Lemma marker_line_has_field (line : string) :
  Py.contains "Model Number:" line = true ->
  exists value, field_after_colon line value.
Proof.
  intros Hc. apply PyFacts.contains_iff in Hc as (pre & post & Hline).
  destruct (PyFacts.split_once_shape ":"%char line)
    as [[_ Hno]|(k & v & _ & Heq & Hk)].
  - assert (Hyes : Py.contains ":" line = true).
    { apply PyFacts.contains_iff. exists (pre +:+ "Model Number"), post.
      rewrite Hline, PyFacts.str_app_assoc. reflexivity. }
    congruence.
  - exists v, k. now split.
Qed.

Lemma scan_model_number_first (lines : list string) (init line value : string) :
  first_match (Py.contains "Model Number:") lines line ->
  field_after_colon line value ->
  scan_model_number lines init = Ret (Py.strip value).
Proof.
  intros (pre & post & -> & Hpre & Hline) Hfield.
  induction Hpre as [|l pre Hl _ IH]; cbn [app scan_model_number].
  - rewrite Hline, (item_field _ _ Hfield). reflexivity.
  - rewrite Hl. exact IH.
Qed.

Lemma scan_model_number_none (lines : list string) (init : string) :
  Forall (fun l => Py.contains "Model Number:" l = false) lines ->
  scan_model_number lines init = Ret init.
Proof.
  induction 1 as [|l lines Hl _ IH]; cbn [scan_model_number];
    [reflexivity|]. now rewrite Hl.
Qed.

(** The scan of the ATA output cannot fail. *)
Lemma scan_model_number_total (lines : list string) (init : string) :
  exists m, scan_model_number lines init = Ret m.
Proof.
  induction lines as [|l lines IH]; cbn [scan_model_number]; [eauto|].
  destruct (Py.contains "Model Number:" l) eqn:Hl; [|exact IH].
  destruct (marker_line_has_field l Hl) as [value Hv].
  rewrite (item_field _ _ Hv). cbn. eauto.
Qed.

Lemma scan_mn_first (lines : list string) (init line value : string) :
  first_match (fun l => Py.startswith l "mn") lines line ->
  field_after_colon line value ->
  scan_mn lines init = Ret (Py.strip value).
Proof.
  intros (pre & post & -> & Hpre & Hline) Hfield.
  induction Hpre as [|l pre Hl _ IH]; cbn [app scan_mn].
  - rewrite Hline, (item_field _ _ Hfield). reflexivity.
  - rewrite Hl. exact IH.
Qed.

Lemma scan_mn_no_colon (lines : list string) (init line : string) :
  first_match (fun l => Py.startswith l "mn") lines line ->
  Py.contains ":" line = false ->
  scan_mn lines init = Raise IndexError.
Proof.
  intros (pre & post & -> & Hpre & Hline) Hno.
  induction Hpre as [|l pre Hl _ IH]; cbn [app scan_mn].
  - rewrite Hline.
    destruct (PyFacts.split_once_shape ":"%char line)
      as [[-> _]|(k & v & _ & Heq & _)]; [reflexivity|].
    assert (Hyes : Py.contains ":" line = true).
    { apply PyFacts.contains_iff. exists k, v. exact Heq. }
    congruence.
  - rewrite Hl. exact IH.
Qed.

Lemma scan_mn_none (lines : list string) (init : string) :
  Forall (fun l => Py.startswith l "mn" = false) lines ->
  scan_mn lines init = Ret init.
Proof.
  induction 1 as [|l lines Hl _ IH]; cbn [scan_mn]; [reflexivity|].
  now rewrite Hl.
Qed.

(** The three ways the model lookup can go. *)
Lemma resolve_model_cases (h : host) (dev : string) (w : world) :
  let ata := decoded_output h (subprocess h (hdparm_cmd dev)) in
  let nvme := decoded_output h (subprocess h (nvme_id_cmd dev)) in
  let after t := World (fs w) (trace w ++ t) (clock w) in
  (exists out,
      ata = Ret out /\
      resolve_model h dev w =
      (scan_model_number (Py.split Py.LF out) "",
       after [EvExec (hdparm_cmd dev)]))
  \/ (exists e,
         ata = Raise e /\ Py.startswith dev "/dev/nvme" = false /\
         resolve_model h dev w = (Ret "", after [EvExec (hdparm_cmd dev)]))
  \/ (exists e,
         ata = Raise e /\ Py.startswith dev "/dev/nvme" = true /\
         resolve_model h dev w =
         (match nvme with
          | Ret out =>
              match scan_mn (Py.split Py.LF out) "" with
              | Ret m => Ret m
              | Raise _ => Ret ""
              end
          | Raise _ => Ret ""
          end,
          after [EvExec (hdparm_cmd dev); EvExec (nvme_id_cmd dev)])).
Proof.
  cbv zeta.
  unfold resolve_model, try_except, check_output_decode, bind, emit, lift, ret.
  cbn [fs trace clock].
  destruct (decoded_output h (subprocess h (hdparm_cmd dev))) as [out|e].
  - left. exists out. split; [reflexivity|].
    destruct (scan_model_number_total (Py.split Py.LF out) "") as [m ->].
    reflexivity.
  - right. destruct (Py.startswith dev "/dev/nvme").
    + right. exists e. do 2 (split; [reflexivity|]).
      cbn [fs trace clock]. rewrite <- app_assoc. cbn [app].
      destruct (decoded_output h (subprocess h (nvme_id_cmd dev)))
        as [out|e']; [|reflexivity].
      now destruct (scan_mn (Py.split Py.LF out) "").
    + left. exists e. now repeat split.
Qed.

(** C5: the model comes from the "Model Number:" line of the ATA tool
    whenever that invocation succeeds (the NVMe tool is then not run at
    all); the NVMe fallback runs exactly when the ATA invocation raised
    and the path starts with /dev/nvme, and reads the first line that
    begins with "mn"; when both attempts fail (the ATA invocation raised
    and the fallback does not apply, raises, prints no line beginning with
    "mn", or prints a first such line without a colon) the model is the
    empty string and the record is still returned. *)
Theorem get_disk_info_model (h : host) (dev : string) (w : world) :
  os_path_exists h dev = true ->
  os_path_isblock h dev = Ret true ->
  (exists bytes, os_stat_st_size h dev = Ret bytes) ->
  (exists lines, proc_mounts h = Ret lines) ->
  let ata := decoded_output h (subprocess h (hdparm_cmd dev)) in
  let nvme := decoded_output h (subprocess h (nvme_id_cmd dev)) in
  exists info t,
    get_disk_info h dev w =
    (Ret (Some info), World (fs w) (trace w ++ t) (clock w))
    /\ (forall out, ata = Ret out ->
          t = [EvExec (hdparm_cmd dev)]
          /\ (forall line value,
                first_match (Py.contains "Model Number:")
                  (Py.split Py.LF out) line ->
                field_after_colon line value ->
                model info = Py.strip value)
          /\ (Forall (fun l => Py.contains "Model Number:" l = false)
                (Py.split Py.LF out) ->
              model info = ""))
    /\ (In (EvExec (nvme_id_cmd dev)) t <->
        (exists e, ata = Raise e) /\ Py.startswith dev "/dev/nvme" = true)
    /\ (forall e out line value,
          ata = Raise e -> Py.startswith dev "/dev/nvme" = true ->
          nvme = Ret out ->
          first_match (fun l => Py.startswith l "mn")
            (Py.split Py.LF out) line ->
          field_after_colon line value ->
          model info = Py.strip value)
    /\ (forall e,
          ata = Raise e ->
          Py.startswith dev "/dev/nvme" = false \/ (exists e', nvme = Raise e') ->
          model info = "")
    /\ (forall e out,
          ata = Raise e -> nvme = Ret out ->
          Forall (fun l => Py.startswith l "mn" = false)
            (Py.split Py.LF out) ->
          model info = "")
    /\ (forall e out line,
          ata = Raise e -> nvme = Ret out ->
          first_match (fun l => Py.startswith l "mn")
            (Py.split Py.LF out) line ->
          Py.contains ":" line = false ->
          model info = "").
Proof.
  intros Hex Hblk [bytes Hst] [lines Hmt]. cbv zeta.
  rewrite get_disk_info_past_guard by assumption.
  unfold try_except, disk_info_body, bind, lift, ret. rewrite Hst, Hmt.
  assert (Hcmd : forall t, In (EvExec (nvme_id_cmd dev)) (EvExec (hdparm_cmd dev) :: t)
                           <-> In (EvExec (nvme_id_cmd dev)) t).
  { intros t. cbn [In]. split; [intros [[=]|Hin]; exact Hin|auto]. }
  destruct (resolve_model_cases h dev w)
    as [(out & Hata & ->)|[(e & Hata & Hsw & ->)|(e & Hata & Hsw & ->)]].
  - destruct (scan_model_number_total (Py.split Py.LF out) "") as [m Hm].
    rewrite Hm. eexists _, _. split; [reflexivity|]. cbn [model].
    rewrite Hata. split; [|split; [|split; [|split; [|split]]]].
    + intros out' [= <-]. split; [reflexivity|]. split.
      * intros line value Hfirst Hfield.
        rewrite (scan_model_number_first _ _ _ _ Hfirst Hfield) in Hm.
        congruence.
      * intros Hnone. rewrite (scan_model_number_none _ _ Hnone) in Hm.
        congruence.
    + rewrite Hcmd. cbn [In]. split; [tauto|]. intros [[e [=]] _].
    + intros e out' line value [=].
    + intros e [=].
    + intros e out' [=].
    + intros e out' line [=].
  - eexists _, _. split; [reflexivity|]. cbn [model].
    rewrite Hata, Hsw. split; [|split; [|split; [|split; [|split]]]].
    + intros out [=].
    + rewrite Hcmd. cbn [In]. split; [tauto|]. intros [_ [=]].
    + intros e' out line value _ [=].
    + reflexivity.
    + reflexivity.
    + reflexivity.
  - set (m := match decoded_output h (subprocess h (nvme_id_cmd dev)) with
              | Ret out => _ | Raise _ => _ end).
    assert (Hm : exists s, m = Ret s).
    { subst m. destruct (decoded_output h (subprocess h (nvme_id_cmd dev)))
        as [out|e']; [|eauto]. destruct (scan_mn _ _); eauto. }
    destruct Hm as [s Hs]. rewrite Hs.
    eexists _, _. split; [reflexivity|]. cbn [model].
    rewrite Hata, Hsw. split; [|split; [|split; [|split; [|split]]]].
    + intros out [=].
    + rewrite Hcmd. cbn [In]. split; [eauto|auto].
    + intros e' out line value _ _ Hnv Hfirst Hfield. subst m.
      rewrite Hnv, (scan_mn_first _ _ _ _ Hfirst Hfield) in Hs. congruence.
    + intros e' _ [[=]|[e'' Hnv]]. subst m. rewrite Hnv in Hs. congruence.
    + intros e' out _ Hnv Hnone. subst m.
      rewrite Hnv, (scan_mn_none _ _ Hnone) in Hs. congruence.
    + intros e' out line _ Hnv Hfirst Hno. subst m.
      rewrite Hnv, (scan_mn_no_colon _ _ _ Hfirst Hno) in Hs. congruence.
Qed.

Lemma get_disk_info_model_witness :
  (exists info,
      (get_disk_info lab_host "/dev/sda" w0).1 = Ret (Some info) /\
      model info = Py.strip "       WDC WD5000AAKX  ")
  /\ (exists info,
        (get_disk_info lab_host "/dev/nvme0n1" w0).1 = Ret (Some info) /\
        model info = "Samsung SSD 970 EVO 1TB")
  /\ (exists info,
        (get_disk_info odd_host "/dev/nvme1n1" w0).1 = Ret (Some info) /\
        model info = "").
Proof.
  split; [|split].
  - destruct (get_disk_info_model lab_host "/dev/sda" w0)
      as (info & t & Hrun & Hata & _);
      [reflexivity | reflexivity | eexists; reflexivity
      | eexists; reflexivity |].
    exists info. split; [now rewrite Hrun|].
    destruct (Hata _ eq_refl) as (_ & Hm & _).
    apply (Hm "    Model Number:       WDC WD5000AAKX  ").
    + exists ["ATA device, with non-removable media"],
        ["    Serial Number:      WD-1234"; ""].
      split; [reflexivity|]. split; [|reflexivity].
      constructor; [reflexivity|constructor].
    + exists "    Model Number". split; reflexivity.
  - destruct (get_disk_info_model lab_host "/dev/nvme0n1" w0)
      as (info & t & Hrun & _ & _ & Hmn & _);
      [reflexivity | reflexivity | eexists; reflexivity
      | eexists; reflexivity |].
    exists info. split; [now rewrite Hrun|].
    etransitivity;
      [apply (Hmn CalledProcessError _
                "mn        : Samsung SSD 970 EVO 1TB"
                " Samsung SSD 970 EVO 1TB" eq_refl eq_refl eq_refl)
      |reflexivity].
    + exists ["vid       : 0x144d"], [""].
      split; [reflexivity|]. split; [|reflexivity].
      constructor; [reflexivity|constructor].
    + exists "mn        ". split; reflexivity.
  - destruct (get_disk_info_model odd_host "/dev/nvme1n1" w0)
      as (info & t & Hrun & _ & _ & _ & _ & _ & Hbare);
      [reflexivity | reflexivity | eexists; reflexivity
      | eexists; reflexivity |].
    exists info. split; [now rewrite Hrun|].
    apply (Hbare FileNotFoundError _ "mn SAMSUNG" eq_refl eq_refl);
      [|reflexivity].
    exists ["vid : 0x144d"], ["mn : never read"; ""].
    split; [reflexivity|]. split; [|reflexivity].
    constructor; [reflexivity|constructor].
Defined.


(** ** Trace discipline of the monad *)
Section Emits.
Context (P : event -> Prop).

Lemma emits_ret {A} (a : A) : emits P (ret a).
Proof. intros w. exists []. now rewrite app_nil_r. Qed.

Lemma emits_lift {A} (o : outcome A) : emits P (lift o).
Proof. intros w. exists []. now rewrite app_nil_r. Qed.

Lemma emits_bind {A B} (m : exec A) (k : A -> exec B) :
  emits P m -> (forall a, emits P (k a)) -> emits P (bind m k).
Proof.
  intros Hm Hk w. unfold bind. destruct (Hm w) as (t1 & Ht1 & HP1).
  destruct (m w) as [[a|e] w1]; cbn [snd] in *.
  - destruct (Hk a w1) as (t2 & Ht2 & HP2). exists (t1 ++ t2).
    rewrite Ht2, Ht1, app_assoc. split; [reflexivity|].
    now apply Forall_app.
  - exists t1. now split.
Qed.

Lemma emits_try_except {A} (m h : exec A) :
  emits P m -> emits P h -> emits P (try_except m h).
Proof.
  intros Hm Hh w. unfold try_except. destruct (Hm w) as (t1 & Ht1 & HP1).
  destruct (m w) as [[a|e] w1]; cbn [snd] in *.
  - exists t1. now split.
  - destruct (Hh w1) as (t2 & Ht2 & HP2). exists (t1 ++ t2).
    rewrite Ht2, Ht1, app_assoc. split; [reflexivity|].
    now apply Forall_app.
Qed.

Lemma emits_emit (e : event) : P e -> emits P (emit e).
Proof. intros He w. exists [e]. split; [reflexivity|]. now constructor. Qed.

Lemma emits_open_a (p : string) : P (EvOpen p ModeA) -> emits P (open_a p).
Proof. intros He w. exists [EvOpen p ModeA]. split; [reflexivity|]. now constructor. Qed.

Lemma emits_write (p : string) (m : mode) (text : string) :
  P (EvWrite p m text) -> emits P (write p m text).
Proof.
  intros He w. exists [EvWrite p m text]. split; [reflexivity|].
  now constructor.
Qed.

Lemma emits_timestamp_now (h : host) : emits P (timestamp_now h).
Proof. intros w. exists []. now rewrite app_nil_r. Qed.

Lemma emits_log (h : host) (self : SystemMonitor) (level message : string) :
  (forall ts, Forall P (log_events self ts level message)) ->
  emits P (log h self level message).
Proof. intros HP w. rewrite log_run. cbn [snd trace]. eauto. Qed.

Lemma emits_write_channels (p : string) (fans : gmap string string)
  (channels : list string) :
  (forall text, P (EvWrite p ModeA text)) ->
  emits P (write_channels p fans channels).
Proof.
  intros HP. induction channels as [|ch channels IH]; cbn [write_channels].
  - apply emits_ret.
  - apply emits_bind; [apply emits_write, HP|intros _; exact IH].
Qed.

End Emits.

(** ** Files only grow *)
Section Grows.

Lemma content_touch (store : gmap string string) (p q : string) :
  content (<[p := content store p]> store) q = content store q.
Proof.
  unfold content at 1. destruct (decide (p = q)) as [->|Hne].
  - now rewrite lookup_insert_eq.
  - now rewrite lookup_insert_ne.
Qed.

Lemma unchanged_grows {A} (m : exec A) :
  (forall w, fs (m w).2 = fs w) -> appends_files m.
Proof.
  intros Hsame w p. exists "". now rewrite Hsame, PyFacts.str_app_empty_r.
Qed.

Lemma grows_ret {A} (a : A) : appends_files (ret a).
Proof. now apply unchanged_grows. Qed.

Lemma grows_lift {A} (o : outcome A) : appends_files (lift o).
Proof. now apply unchanged_grows. Qed.

Lemma grows_emit (e : event) : appends_files (emit e).
Proof. now apply unchanged_grows. Qed.

Lemma grows_timestamp_now (h : host) : appends_files (timestamp_now h).
Proof. now apply unchanged_grows. Qed.

Lemma grows_open_a (p : string) : appends_files (open_a p).
Proof.
  intros w q. exists "". unfold open_a. cbn [snd fs].
  now rewrite content_touch, PyFacts.str_app_empty_r.
Qed.

Lemma grows_write (p : string) (m : mode) (text : string) :
  appends_files (write p m text).
Proof.
  intros w q. unfold write. cbn [snd fs].
  fold (append_to p text (fs w)). destruct (decide (p = q)) as [->|Hne].
  - exists text. apply content_append_same.
  - exists "". rewrite content_append_other by exact Hne.
    now rewrite PyFacts.str_app_empty_r.
Qed.

Lemma grows_bind {A B} (m : exec A) (k : A -> exec B) :
  appends_files m -> (forall a, appends_files (k a)) ->
  appends_files (bind m k).
Proof.
  intros Hm Hk w p. unfold bind. destruct (Hm w p) as [s1 Hs1].
  destruct (m w) as [[a|e] w1]; cbn [snd] in *.
  - destruct (Hk a w1 p) as [s2 Hs2]. exists (s1 +:+ s2).
    now rewrite Hs2, Hs1, PyFacts.str_app_assoc.
  - eauto.
Qed.

Lemma grows_try_except {A} (m h : exec A) :
  appends_files m -> appends_files h -> appends_files (try_except m h).
Proof.
  intros Hm Hh w p. unfold try_except. destruct (Hm w p) as [s1 Hs1].
  destruct (m w) as [[a|e] w1]; cbn [snd] in *.
  - eauto.
  - destruct (Hh w1 p) as [s2 Hs2]. exists (s1 +:+ s2).
    now rewrite Hs2, Hs1, PyFacts.str_app_assoc.
Qed.

Lemma grows_log (h : host) (self : SystemMonitor) (level message : string) :
  appends_files (log h self level message).
Proof.
  unfold log. apply grows_bind; [apply grows_timestamp_now|]. intros ts.
  apply grows_bind; [apply grows_emit|]. intros _.
  destruct (String.eqb (logs_dir self) ""); [apply grows_ret|].
  repeat first [ apply grows_bind; [|intros ?] | apply grows_emit
               | apply grows_open_a | apply grows_write ].
Qed.

Lemma grows_write_channels (p : string) (fans : gmap string string)
  (channels : list string) :
  appends_files (write_channels p fans channels).
Proof.
  induction channels as [|ch channels IH]; cbn [write_channels].
  - apply grows_ret.
  - apply grows_bind; [apply grows_write|intros _; exact IH].
Qed.

End Grows.

(** ** What a computation writes *)
Section Records.
Context (P : event -> Prop).

Lemma written_app (p : string) (t1 t2 : list event) :
  written p (t1 ++ t2) = written p t1 +:+ written p t2.
Proof.
  induction t1 as [|e t1 IH]; [reflexivity|].
  destruct e as [| | |q m text| |]; cbn [app written]; try exact IH.
  destruct (String.eqb q p); [|exact IH].
  now rewrite IH, PyFacts.str_app_assoc.
Qed.


Lemma records_unchanged {A} (m : exec A) :
  (forall w, fs (m w).2 = fs w /\ trace (m w).2 = trace w) -> records P m.
Proof.
  intros Hsame w. exists []. destruct (Hsame w) as [Hfs Ht].
  rewrite Hfs, Ht, app_nil_r. split; [reflexivity|]. split; [constructor|].
  intros p. cbn [written]. now rewrite PyFacts.str_app_empty_r.
Qed.

Lemma records_ret {A} (a : A) : records P (ret a).
Proof. now apply records_unchanged. Qed.

Lemma records_lift {A} (o : outcome A) : records P (lift o).
Proof. now apply records_unchanged. Qed.

Lemma records_emit (e : event) :
  P e -> event_path e = None -> records P (emit e).
Proof.
  intros He Hpath w. exists [e]. split; [reflexivity|].
  split; [now constructor|]. intros p. unfold emit. cbn [snd fs].
  destruct e; try discriminate Hpath; cbn [written];
    now rewrite PyFacts.str_app_empty_r.
Qed.

Lemma records_open_a (p : string) :
  P (EvOpen p ModeA) -> records P (open_a p).
Proof.
  intros He w. exists [EvOpen p ModeA]. split; [reflexivity|].
  split; [now constructor|]. intros q. unfold open_a. cbn [snd fs written].
  now rewrite content_touch, PyFacts.str_app_empty_r.
Qed.

Lemma records_write (p : string) (m : mode) (text : string) :
  P (EvWrite p m text) -> records P (write p m text).
Proof.
  intros He w. exists [EvWrite p m text]. split; [reflexivity|].
  split; [now constructor|]. intros q. unfold write. cbn [snd fs written].
  fold (append_to p text (fs w)). destruct (String.eqb p q) eqn:Hpq.
  - apply String.eqb_eq in Hpq as ->.
    now rewrite content_append_same, PyFacts.str_app_empty_r.
  - apply String.eqb_neq in Hpq.
    rewrite content_append_other by exact Hpq.
    now rewrite PyFacts.str_app_empty_r.
Qed.

Lemma records_bind {A B} (m : exec A) (k : A -> exec B) :
  records P m -> (forall a, records P (k a)) -> records P (bind m k).
Proof.
  intros Hm Hk w. unfold bind. destruct (Hm w) as (t1 & Ht1 & HP1 & Hc1).
  destruct (m w) as [[a|e] w1]; cbn [snd] in *.
  - destruct (Hk a w1) as (t2 & Ht2 & HP2 & Hc2). exists (t1 ++ t2).
    rewrite Ht2, Ht1, app_assoc. split; [reflexivity|].
    split; [now apply Forall_app|]. intros p.
    now rewrite Hc2, Hc1, written_app, PyFacts.str_app_assoc.
  - exists t1. now split.
Qed.

Lemma records_try_except {A} (m handler : exec A) :
  records P m -> records P handler -> records P (try_except m handler).
Proof.
  intros Hm Hh w. unfold try_except.
  destruct (Hm w) as (t1 & Ht1 & HP1 & Hc1).
  destruct (m w) as [[a|e] w1]; cbn [snd] in *.
  - exists t1. now split.
  - destruct (Hh w1) as (t2 & Ht2 & HP2 & Hc2). exists (t1 ++ t2).
    rewrite Ht2, Ht1, app_assoc. split; [reflexivity|].
    split; [now apply Forall_app|]. intros p.
    now rewrite Hc2, Hc1, written_app, PyFacts.str_app_assoc.
Qed.

(** The reading of the clock is what the continuation is run with. *)
Lemma records_timestamp_bind {B} (h : host) (k : string -> exec B) :
  (forall n, records P (k (strftime_now h n))) ->
  records P (bind (timestamp_now h) k).
Proof.
  intros Hk w. unfold bind, timestamp_now.
  destruct (Hk (clock w) (World (fs w) (trace w) (S (clock w))))
    as (t & Ht & HP & Hc).
  exists t. now split.
Qed.

Lemma records_log (h : host) (self : SystemMonitor) (level message : string) :
  (forall ts, Forall P (log_events self ts level message)) ->
  records P (log h self level message).
Proof.
  intros HP. unfold log. apply records_timestamp_bind. intros n.
  specialize (HP (strftime_now h n)). unfold log_events in HP.
  apply records_bind;
    [apply records_emit; [now inversion HP|reflexivity]|intros _].
  destruct (String.eqb (logs_dir self) ""); [apply records_ret|].
  inversion HP as [|? ? _ HP1]; subst.
  inversion HP1 as [|? ? Hmk HP2]; subst.
  inversion HP2 as [|? ? Hop HP3]; subst.
  inversion HP3 as [|? ? Hwr _]; subst.
  apply records_bind; [now apply records_emit|intros _].
  apply records_bind; [now apply records_open_a|intros _].
  now apply records_write.
Qed.

Lemma records_write_channels (p : string) (fans : gmap string string)
  (channels : list string) :
  (forall reading, P (EvWrite p ModeA ("," +:+ reading))) ->
  records P (write_channels p fans channels).
Proof.
  intros HP. induction channels as [|ch channels IH]; cbn [write_channels].
  - apply records_ret.
  - apply records_bind; [apply records_write, HP|intros _; exact IH].
Qed.

End Records.

(** Reading a file back after appends to it and to other files. *)
Ltac read_content :=
  repeat first
    [ rewrite content_append_same
    | rewrite content_append_other by congruence
    | rewrite content_log_store_other by congruence ].

(** ** The sampler *)
Section SamplerFacts.
Context {F : Type} `{PyFloat F}.
Implicit Types (h : host) (self : SystemMonitor) (env : tick_env F)
  (w : world) (store : gmap string string).

Lemma append_to_touch store (p text : string) :
  append_to p text (<[p := content store p]> store) = append_to p text store.
Proof. apply open_then_write. Qed.

Lemma append_to_twice store (p t1 t2 : string) :
  append_to p t2 (append_to p t1 store) = append_to p (t1 +:+ t2) store.
Proof.
  unfold append_to at 1. rewrite content_append_same.
  unfold append_to. now rewrite insert_insert_eq, PyFacts.str_app_assoc.
Qed.

(** Appending one fully formed row. *)
Lemma append_row_run {A} (p text : string) (k : exec A) w :
  (open_a p ;; write p ModeA text ;; k) w =
  k (World (append_to p text (fs w))
           (trace w ++ [EvOpen p ModeA; EvWrite p ModeA text]) (clock w)).
Proof.
  unfold bind, open_a, write. cbn [fs trace clock].
  now rewrite open_then_write, <- app_assoc.
Qed.

(** The fan row is written piecewise through one handle. *)
Lemma fan_row_run (p timestamp : string) (fans : gmap string string) w :
  (open_a p ;; write p ModeA timestamp ;;
   write_channels p fans fan_channels ;; write p ModeA Py.nl) w =
  (Ret tt,
   World (append_to p (fan_row timestamp fans) (fs w))
     (trace w ++
      [EvOpen p ModeA; EvWrite p ModeA timestamp;
       EvWrite p ModeA ("," +:+ fans_get fans "FAN1");
       EvWrite p ModeA ("," +:+ fans_get fans "FAN2");
       EvWrite p ModeA ("," +:+ fans_get fans "FAN3");
       EvWrite p ModeA ("," +:+ fans_get fans "FAN4");
       EvWrite p ModeA ("," +:+ fans_get fans "FANA");
       EvWrite p ModeA Py.nl])
     (clock w)).
Proof.
  unfold fan_channels, write_channels, bind, open_a, write, ret.
  cbn [fs trace clock]. f_equal. f_equal.
  - fold (append_to p timestamp (<[p := content (fs w) p]> (fs w))).
    rewrite append_to_touch.
    repeat match goal with
    | |- context [<[p := content ?s p +:+ ?t]> ?s] =>
        fold (append_to p t s); rewrite ?append_to_twice
    end.
    unfold fan_row. now rewrite !PyFacts.str_app_assoc.
  - now rewrite <- !app_assoc.
Qed.

Lemma fan_step_ok h (output_dir timestamp fan_output : string)
  (fans : gmap string string) env w :
  decoded_output h (ipmitool env) = Ret fan_output ->
  parse_fans (Py.split Py.LF fan_output) ∅ = Ret fans ->
  fan_step h output_dir timestamp env w =
  (Ret tt,
   World (append_to (fan_path output_dir) (fan_row timestamp fans) (fs w))
     (trace w ++
      [EvExec ipmitool_cmd;
       EvOpen (fan_path output_dir) ModeA;
       EvWrite (fan_path output_dir) ModeA timestamp;
       EvWrite (fan_path output_dir) ModeA ("," +:+ fans_get fans "FAN1");
       EvWrite (fan_path output_dir) ModeA ("," +:+ fans_get fans "FAN2");
       EvWrite (fan_path output_dir) ModeA ("," +:+ fans_get fans "FAN3");
       EvWrite (fan_path output_dir) ModeA ("," +:+ fans_get fans "FAN4");
       EvWrite (fan_path output_dir) ModeA ("," +:+ fans_get fans "FANA");
       EvWrite (fan_path output_dir) ModeA Py.nl])
     (clock w)).
Proof.
  intros Hout Hparse. unfold fan_step, check_output_decode.
  unfold bind at 1 2 3, emit, lift. rewrite Hout, Hparse.
  rewrite fan_row_run. cbn [fs trace clock]. now rewrite <- app_assoc.
Qed.

Lemma fan_step_fail h (output_dir timestamp : string) env w :
  (exists e, decoded_output h (ipmitool env) = Raise e) \/
  (exists fan_output e,
      decoded_output h (ipmitool env) = Ret fan_output /\
      parse_fans (Py.split Py.LF fan_output) ∅ = Raise e) ->
  exists e,
    fan_step h output_dir timestamp env w =
    (Raise e, World (fs w) (trace w ++ [EvExec ipmitool_cmd]) (clock w)).
Proof.
  intros [[e Hout]|(fan_output & e & Hout & Hparse)]; exists e;
    unfold fan_step, check_output_decode; unfold bind at 1 2 3, emit, lift.
  - now rewrite Hout.
  - now rewrite Hout, Hparse.
Qed.

(** The unconditional part of an iteration. *)
Lemma tick_run h self (output_dir : string) (interval : Z) env w
  (c : cpu_sample F) (m : mem_sample) :
  cpu_times_percent env = Ret c -> virtual_memory env = Ret m ->
  tick h self output_dir interval env w =
  (try_except (fan_step h output_dir (strftime_now h (clock w)) env)
              (log h self "WARNING" "Failed to get fan information") ;;
   emit (EvSleep interval) ;; lift (sleep env))
    (World
       (append_to (mem_path output_dir) (mem_row (strftime_now h (clock w)) m)
          (append_to (cpu_path output_dir)
             (cpu_row (strftime_now h (clock w)) c) (fs w)))
       (trace w ++
        [EvOpen (cpu_path output_dir) ModeA;
         EvWrite (cpu_path output_dir) ModeA
           (cpu_row (strftime_now h (clock w)) c);
         EvOpen (mem_path output_dir) ModeA;
         EvWrite (mem_path output_dir) ModeA
           (mem_row (strftime_now h (clock w)) m)])
       (S (clock w))).
Proof.
  intros Hc Hm. unfold tick. unfold bind at 1 2, timestamp_now, lift.
  rewrite Hc. rewrite append_row_run. unfold bind at 1, lift. rewrite Hm.
  rewrite append_row_run. cbn [fs trace clock]. now rewrite <- app_assoc.
Qed.

(** An iteration whose fan step succeeds. *)
Lemma tick_ok h self (output_dir : string) (interval : Z) env w
  (c : cpu_sample F) (m : mem_sample) (fan_output : string)
  (fans : gmap string string) :
  cpu_times_percent env = Ret c -> virtual_memory env = Ret m ->
  decoded_output h (ipmitool env) = Ret fan_output ->
  parse_fans (Py.split Py.LF fan_output) ∅ = Ret fans ->
  tick h self output_dir interval env w =
  (sleep env,
   World
     (append_to (fan_path output_dir) (fan_row (strftime_now h (clock w)) fans)
        (append_to (mem_path output_dir)
           (mem_row (strftime_now h (clock w)) m)
           (append_to (cpu_path output_dir)
              (cpu_row (strftime_now h (clock w)) c) (fs w))))
     (trace w ++
      [EvOpen (cpu_path output_dir) ModeA;
       EvWrite (cpu_path output_dir) ModeA
         (cpu_row (strftime_now h (clock w)) c);
       EvOpen (mem_path output_dir) ModeA;
       EvWrite (mem_path output_dir) ModeA
         (mem_row (strftime_now h (clock w)) m);
       EvExec ipmitool_cmd] ++
      [EvOpen (fan_path output_dir) ModeA;
       EvWrite (fan_path output_dir) ModeA (strftime_now h (clock w));
       EvWrite (fan_path output_dir) ModeA ("," +:+ fans_get fans "FAN1");
       EvWrite (fan_path output_dir) ModeA ("," +:+ fans_get fans "FAN2");
       EvWrite (fan_path output_dir) ModeA ("," +:+ fans_get fans "FAN3");
       EvWrite (fan_path output_dir) ModeA ("," +:+ fans_get fans "FAN4");
       EvWrite (fan_path output_dir) ModeA ("," +:+ fans_get fans "FANA");
       EvWrite (fan_path output_dir) ModeA Py.nl;
       EvSleep interval])
     (S (clock w))).
Proof.
  intros Hc Hm Hout Hparse. rewrite (tick_run _ _ _ _ _ _ _ _ Hc Hm).
  unfold bind at 1, try_except.
  rewrite (fan_step_ok _ _ _ _ _ _ _ Hout Hparse).
  unfold bind, emit, lift. cbn [fs trace clock].
  now rewrite <- !app_assoc.
Qed.

(** An iteration whose fan step fails. *)
Lemma tick_fail h self (output_dir : string) (interval : Z) env w
  (c : cpu_sample F) (m : mem_sample) :
  cpu_times_percent env = Ret c -> virtual_memory env = Ret m ->
  (exists e, decoded_output h (ipmitool env) = Raise e) \/
  (exists fan_output e,
      decoded_output h (ipmitool env) = Ret fan_output /\
      parse_fans (Py.split Py.LF fan_output) ∅ = Raise e) ->
  tick h self output_dir interval env w =
  (sleep env,
   World
     (log_store self (strftime_now h (S (clock w))) "WARNING"
        "Failed to get fan information"
        (append_to (mem_path output_dir)
           (mem_row (strftime_now h (clock w)) m)
           (append_to (cpu_path output_dir)
              (cpu_row (strftime_now h (clock w)) c) (fs w))))
     (trace w ++
      [EvOpen (cpu_path output_dir) ModeA;
       EvWrite (cpu_path output_dir) ModeA
         (cpu_row (strftime_now h (clock w)) c);
       EvOpen (mem_path output_dir) ModeA;
       EvWrite (mem_path output_dir) ModeA
         (mem_row (strftime_now h (clock w)) m);
       EvExec ipmitool_cmd] ++
      log_events self (strftime_now h (S (clock w))) "WARNING"
        "Failed to get fan information" ++
      [EvSleep interval])
     (S (S (clock w)))).
Proof.
  intros Hc Hm Hfail. rewrite (tick_run _ _ _ _ _ _ _ _ Hc Hm).
  unfold bind at 1, try_except.
  edestruct fan_step_fail as [e ->]; [exact Hfail|].
  rewrite log_run. unfold bind, emit, lift. cbn [fs trace clock].
  now rewrite <- !app_assoc.
Qed.

Lemma fan_step_outcome h env :
  (exists out fans, decoded_output h (ipmitool env) = Ret out /\
                    parse_fans (Py.split Py.LF out) ∅ = Ret fans) \/
  ((exists e, decoded_output h (ipmitool env) = Raise e) \/
   (exists fan_output e,
       decoded_output h (ipmitool env) = Ret fan_output /\
       parse_fans (Py.split Py.LF fan_output) ∅ = Raise e)).
Proof.
  destruct (decoded_output h (ipmitool env)) as [out|e]; [|eauto].
  destruct (parse_fans (Py.split Py.LF out) ∅) as [fans|e] eqn:Hp; eauto 8.
Qed.


(** *** What a run adds to the trace *)

(** A tool that could not be started and a tool that exits with a
    non-zero status both make [check_output] raise. *)
Lemma decoded_output_failures h :
  (forall e, decoded_output h (NotStarted e) = Raise e) /\
  (forall status out,
      status <> 0%Z ->
      decoded_output h (Exited status out) = Raise CalledProcessError).
Proof.
  split; [reflexivity|]. intros status out Hne.
  destruct status; [congruence|reflexivity..].
Qed.

Section TickEmits.
Context (P : event -> Prop).
Hypothesis P_open : forall p, P (EvOpen p ModeA).
Hypothesis P_write : forall p text, P (EvWrite p ModeA text).
Hypothesis P_exec : forall cmd, P (EvExec cmd).
Hypothesis P_sleep : forall s, P (EvSleep s).
Hypothesis P_makedirs : forall p, P (EvMakedirs p).
Hypothesis P_warning : forall ts,
  P (EvPrint (log_message ts "WARNING" "Failed to get fan information")).

Lemma warning_events self (ts : string) :
  Forall P (log_events self ts "WARNING" "Failed to get fan information").
Proof.
  unfold log_events. destruct (String.eqb (logs_dir self) "");
    repeat constructor; auto.
Qed.

Lemma emits_fan_step h (output_dir timestamp : string) env :
  emits P (fan_step h output_dir timestamp env).
Proof.
  unfold fan_step, check_output_decode.
  repeat first
    [ apply emits_bind; [|intros ?]
    | apply emits_emit | apply emits_lift | apply emits_open_a
    | apply emits_write | apply emits_write_channels ]; auto.
Qed.

Lemma emits_tick h self (output_dir : string) (interval : Z) env :
  emits P (tick h self output_dir interval env).
Proof.
  unfold tick.
  repeat first
    [ apply emits_try_except
    | apply emits_fan_step
    | apply emits_log; intros ?; apply warning_events
    | apply emits_bind; [|intros ?]
    | apply emits_timestamp_now
    | apply emits_emit | apply emits_lift | apply emits_open_a
    | apply emits_write ]; auto.
Qed.

Lemma sampling_loop_emits h self (output_dir : string) (interval : Z)
  (ticks : list (tick_env F)) w :
  exists t,
    trace (sampling_loop h self output_dir interval ticks w).2 = trace w ++ t /\
    Forall P t.
Proof.
  revert w. induction ticks as [|env ticks IH]; intros w; cbn [sampling_loop].
  - exists []. now rewrite app_nil_r.
  - destruct (emits_tick h self output_dir interval env w) as (t1 & Ht1 & HP1).
    destruct (tick h self output_dir interval env w) as [[[]|e] w1];
      cbn [snd] in *.
    + destruct (IH w1) as (t2 & Ht2 & HP2). exists (t1 ++ t2).
      rewrite Ht2, Ht1, app_assoc. split; [reflexivity|].
      now apply Forall_app.
    + exists t1. now split.
Qed.

End TickEmits.

Lemma grows_tick h self (output_dir : string) (interval : Z) env :
  appends_files (tick h self output_dir interval env).
Proof.
  unfold tick, fan_step, check_output_decode.
  repeat first
    [ apply grows_try_except
    | apply grows_log
    | apply grows_bind; [|intros ?]
    | apply grows_timestamp_now | apply grows_write_channels
    | apply grows_emit | apply grows_lift | apply grows_open_a
    | apply grows_write ].
Qed.

Lemma sampling_loop_grows h self (output_dir : string) (interval : Z)
  (ticks : list (tick_env F)) w (p : string) :
  exists suffix,
    content (fs (sampling_loop h self output_dir interval ticks w).2) p =
    content (fs w) p +:+ suffix.
Proof.
  revert w. induction ticks as [|env ticks IH]; intros w; cbn [sampling_loop].
  - exists "". now rewrite PyFacts.str_app_empty_r.
  - destruct (grows_tick h self output_dir interval env w p) as [s1 Hs1].
    destruct (tick h self output_dir interval env w) as [[[]|e] w1];
      cbn [snd] in *; [|eauto].
    destruct (IH w1) as [s2 Hs2]. exists (s1 +:+ s2).
    now rewrite Hs2, Hs1, PyFacts.str_app_assoc.
Qed.

(** *** Startup *)

Lemma makedirs_run h (path : string) w :
  makedirs h path w =
  (if String.eqb path "" then Raise FileNotFoundError else os_makedirs h path,
   World (fs w) (trace w ++ [EvMakedirs path]) (clock w)).
Proof.
  unfold makedirs, bind, emit, lift. cbn [fs trace clock].
  now destruct (String.eqb path "").
Qed.

Lemma create_run h (path : string) w :
  create h path w =
  match os_creat h path with
  | Ret _ =>
      (Ret tt,
       World (<[path := ""]> (fs w)) (trace w ++ [EvOpen path ModeW]) (clock w))
  | Raise e => (Raise e, w)
  end.
Proof.
  unfold create, bind, lift, open_w. now destruct (os_creat h path).
Qed.

Lemma header_run {A} (path header : string) (k : exec A) store
  (t : list event) (c : nat) :
  (write path ModeW header ;; k)
    (World (<[path := ""]> store) (t ++ [EvOpen path ModeW]) c)
  = k (World (<[path := header]> store)
         (t ++ [EvOpen path ModeW; EvWrite path ModeW header]) c).
Proof.
  unfold bind, write. cbn [fs trace clock]. unfold content.
  rewrite lookup_insert_eq, insert_insert_eq. cbn [default].
  now rewrite PyFacts.str_app_empty_l, <- app_assoc.
Qed.

(** How far the startup gets: through, or up to the first of the
    directory and the three sinks that cannot be created. *)
Lemma create_sinks_cases h (output_dir : string) w :
  let cpu := cpu_path output_dir in
  let fan := fan_path output_dir in
  let mem := mem_path output_dir in
  let c := [EvOpen cpu ModeW; EvWrite cpu ModeW cpu_header] in
  let f := [EvOpen fan ModeW; EvWrite fan ModeW fan_header] in
  let m := [EvOpen mem ModeW; EvWrite mem ModeW mem_header] in
  (sinks_creatable h output_dir /\
   create_sinks h output_dir w =
   (Ret tt,
    World (<[mem := mem_header]>
             (<[fan := fan_header]> (<[cpu := cpu_header]> (fs w))))
      (trace w ++ EvMakedirs output_dir :: c ++ f ++ m) (clock w)))
  \/ (~ sinks_creatable h output_dir /\
      exists e,
        create_sinks h output_dir w =
        (Raise e, World (fs w) (trace w ++ [EvMakedirs output_dir]) (clock w))
        \/ create_sinks h output_dir w =
           (Raise e,
            World (<[cpu := cpu_header]> (fs w))
              (trace w ++ EvMakedirs output_dir :: c) (clock w))
        \/ create_sinks h output_dir w =
           (Raise e,
            World (<[fan := fan_header]> (<[cpu := cpu_header]> (fs w)))
              (trace w ++ EvMakedirs output_dir :: c ++ f) (clock w))).
Proof.
  cbv zeta. unfold sinks_creatable. fold (cpu_path output_dir).
  fold (fan_path output_dir). fold (mem_path output_dir).
  remember (create_sinks h output_dir w) as r eqn:Hr.
  unfold create_sinks in Hr. unfold bind at 1 in Hr.
  rewrite makedirs_run in Hr.
  destruct (String.eqb output_dir "") eqn:Hdir.
  { apply String.eqb_eq in Hdir. right. split; [tauto|].
    exists FileNotFoundError. now left. }
  apply String.eqb_neq in Hdir.
  destruct (os_makedirs h output_dir) as [[]|e] eqn:Hmk.
  2:{ right. split; [intros (_ & ? & _); congruence|]. exists e. now left. }
  unfold bind at 1 in Hr. rewrite create_run in Hr. cbn [fs trace clock] in Hr.
  destruct (os_creat h (cpu_path output_dir)) as [[]|e] eqn:Hc.
  2:{ right. split; [intros (_ & _ & ? & _); congruence|]. exists e. now left. }
  rewrite header_run in Hr. rewrite <- app_assoc in Hr. cbn [app] in Hr.
  unfold bind at 1 in Hr. rewrite create_run in Hr. cbn [fs trace clock] in Hr.
  destruct (os_creat h (fan_path output_dir)) as [[]|e] eqn:Hf.
  2:{ right. split; [intros (_ & _ & _ & ? & _); congruence|]. exists e.
      right. now left. }
  rewrite header_run in Hr. rewrite <- app_assoc in Hr. cbn [app] in Hr.
  unfold bind at 1 in Hr. rewrite create_run in Hr. cbn [fs trace clock] in Hr.
  destruct (os_creat h (mem_path output_dir)) as [[]|e] eqn:Hm.
  2:{ right. split; [intros (_ & _ & _ & _ & ?); congruence|]. exists e.
      right. now right. }
  left. split; [tauto|]. rewrite Hr.
  unfold write. cbn [fs trace clock]. unfold content.
  rewrite lookup_insert_eq, insert_insert_eq. cbn [default id].
  now rewrite PyFacts.str_app_empty_l, <- !app_assoc.
Qed.

Lemma create_sinks_run h (output_dir : string) w :
  sinks_creatable h output_dir ->
  create_sinks h output_dir w =
  (Ret tt,
   World (<[mem_path output_dir := mem_header]>
            (<[fan_path output_dir := fan_header]>
               (<[cpu_path output_dir := cpu_header]> (fs w))))
     (trace w ++
      [EvMakedirs output_dir;
       EvOpen (cpu_path output_dir) ModeW;
       EvWrite (cpu_path output_dir) ModeW cpu_header;
       EvOpen (fan_path output_dir) ModeW;
       EvWrite (fan_path output_dir) ModeW fan_header;
       EvOpen (mem_path output_dir) ModeW;
       EvWrite (mem_path output_dir) ModeW mem_header])
     (clock w)).
Proof.
  intros Hok.
  destruct (create_sinks_cases h output_dir w) as [[_ Hrun]|[Hno _]];
    [exact Hrun|contradiction].
Qed.

(** The empty path is refused before any sink is opened. *)
Lemma create_sinks_no_directory h w :
  create_sinks h "" w =
  (Raise FileNotFoundError, World (fs w) (trace w ++ [EvMakedirs ""]) (clock w)).
Proof. unfold create_sinks. unfold bind at 1. now rewrite makedirs_run. Qed.

Lemma create_sinks_content h (output_dir : string) w :
  sinks_creatable h output_dir ->
  content (fs (create_sinks h output_dir w).2) (cpu_path output_dir)
  = cpu_header
  /\ content (fs (create_sinks h output_dir w).2) (fan_path output_dir)
     = fan_header
  /\ content (fs (create_sinks h output_dir w).2) (mem_path output_dir)
     = mem_header.
Proof.
  intros Hok. rewrite (create_sinks_run _ _ _ Hok). cbn [snd fs].
  unfold content.
  destruct (sink_paths_distinct output_dir) as (Hcf & Hcm & Hfm).
  repeat split.
  - now rewrite !lookup_insert_ne, lookup_insert_eq by congruence.
  - now rewrite lookup_insert_ne, lookup_insert_eq by congruence.
  - now rewrite lookup_insert_eq.
Qed.

(** *** What the loop writes *)

Lemma loop_event_appends_only h (output_dir : string) (e : event) :
  loop_event h output_dir e -> appends_only e.
Proof.
  unfold appends_only.
  destruct e as [| |q m|q m text| |]; cbn [loop_event event_mode];
    try discriminate.
  - intros ->. discriminate.
  - intros [-> _]. discriminate.
Qed.

Lemma loop_event_log_events h self (output_dir : string)
  (ts level message : string) :
  Forall (loop_event h output_dir) (log_events self ts level message).
Proof.
  destruct (log_path_not_sink self output_dir) as (Hc & Hf & Hm).
  unfold cpu_path, fan_path, mem_path in *.
  unfold log_events. destruct (String.eqb (logs_dir self) "");
    repeat (apply List.Forall_cons; [cbn [loop_event]|]);
    try apply List.Forall_nil; try exact I; try reflexivity.
  split; [reflexivity|]. repeat split; intros Heq; contradiction.
Qed.

Lemma loop_event_cpu_row h (output_dir : string) (n : nat) (c : cpu_sample F) :
  loop_event h output_dir
    (EvWrite (cpu_path output_dir) ModeA (cpu_row (strftime_now h n) c)).
Proof.
  destruct (sink_paths_distinct output_dir) as (Hcf & Hcm & Hfm).
  unfold cpu_path, fan_path, mem_path in *. cbn [loop_event].
  split; [reflexivity|]. split; [|split; intros Heq; congruence].
  intros _. exists n, c. reflexivity.
Qed.

Lemma loop_event_mem_row h (output_dir : string) (n : nat) (m : mem_sample) :
  loop_event h output_dir
    (EvWrite (mem_path output_dir) ModeA (mem_row (strftime_now h n) m)).
Proof.
  destruct (sink_paths_distinct output_dir) as (Hcf & Hcm & Hfm).
  unfold cpu_path, fan_path, mem_path in *. cbn [loop_event].
  split; [reflexivity|]. split; [intros Heq; congruence|].
  split; [intros Heq; congruence|].
  intros _. exists n, m. unfold mem_row, megabytes, mb.
  now rewrite !PyFacts.str_app_assoc.
Qed.

Lemma loop_event_fan_piece h (output_dir text : string) :
  fan_piece h text ->
  loop_event h output_dir (EvWrite (fan_path output_dir) ModeA text).
Proof.
  intros Hpiece.
  destruct (sink_paths_distinct output_dir) as (Hcf & Hcm & Hfm).
  unfold cpu_path, fan_path, mem_path in *. cbn [loop_event].
  split; [reflexivity|]. split; [intros Heq; congruence|].
  split; [intros _; exact Hpiece|intros Heq; congruence].
Qed.

Lemma records_fan_step h (output_dir : string) (n : nat) env :
  records (loop_event h output_dir)
    (fan_step h output_dir (strftime_now h n) env).
Proof.
  unfold fan_step, check_output_decode.
  apply records_bind; [|intros fan_output].
  { apply records_bind; [now apply records_emit|intros _].
    apply records_lift. }
  apply records_bind; [apply records_lift|intros fans].
  apply records_bind; [now apply records_open_a|intros _].
  apply records_bind; [|intros _].
  { apply records_write, loop_event_fan_piece. left. now exists n. }
  apply records_bind; [|intros _].
  { apply records_write_channels. intros reading.
    apply loop_event_fan_piece. right. left. now exists reading. }
  apply records_write, loop_event_fan_piece. right. now right.
Qed.

Lemma records_tick h self (output_dir : string) (interval : Z) env :
  records (loop_event h output_dir) (tick h self output_dir interval env).
Proof.
  unfold tick. apply records_timestamp_bind. intros n.
  apply records_bind; [apply records_lift|intros c].
  apply records_bind; [now apply records_open_a|intros _].
  apply records_bind; [apply records_write, loop_event_cpu_row|intros _].
  apply records_bind; [apply records_lift|intros m].
  apply records_bind; [now apply records_open_a|intros _].
  apply records_bind; [apply records_write, loop_event_mem_row|intros _].
  apply records_bind; [|intros _].
  { apply records_try_except; [apply records_fan_step|].
    apply records_log. intros ts. apply loop_event_log_events. }
  apply records_bind; [now apply records_emit|intros _].
  apply records_lift.
Qed.

Lemma sampling_loop_records h self (output_dir : string) (interval : Z)
  (ticks : list (tick_env F)) w :
  exists t,
    trace (sampling_loop h self output_dir interval ticks w).2 = trace w ++ t /\
    Forall (loop_event h output_dir) t /\
    forall p,
      content (fs (sampling_loop h self output_dir interval ticks w).2) p =
      content (fs w) p +:+ written p t.
Proof.
  revert w. induction ticks as [|env ticks IH]; intros w; cbn [sampling_loop].
  - exists []. rewrite app_nil_r. split; [reflexivity|].
    split; [constructor|]. intros p. cbn [written].
    now rewrite PyFacts.str_app_empty_r.
  - destruct (records_tick h self output_dir interval env w)
      as (t1 & Ht1 & HP1 & Hc1).
    destruct (tick h self output_dir interval env w) as [[[]|e] w1];
      cbn [snd] in *.
    + destruct (IH w1) as (t2 & Ht2 & HP2 & Hc2). exists (t1 ++ t2).
      rewrite Ht2, Ht1, app_assoc. split; [reflexivity|].
      split; [now apply Forall_app|]. intros p.
      now rewrite Hc2, Hc1, written_app, PyFacts.str_app_assoc.
    + exists t1. now split.
Qed.

(** Once the sinks were created, a run only appends: to the sinks their
    data pieces, to the log its entries. *)
Lemma monitor_system_records h self (output_dir : string) (interval : Z)
  (ticks : list (tick_env F)) w :
  sinks_creatable h output_dir ->
  exists t,
    trace (monitor_system h self output_dir interval ticks w).2 =
    trace (create_sinks h output_dir w).2 ++ t /\
    Forall (loop_event h output_dir) t /\
    forall p,
      content (fs (monitor_system h self output_dir interval ticks w).2) p =
      content (fs (create_sinks h output_dir w).2) p +:+ written p t.
Proof.
  intros Hok. unfold monitor_system. rewrite (create_sinks_run _ _ _ Hok).
  cbn [snd]. set (w1 := World _ _ _).
  destruct (sampling_loop_records h self output_dir interval ticks w1)
    as (t & Ht & HP & Hc).
  destruct (sampling_loop h self output_dir interval ticks w1)
    as [[e|] w2]; cbn [snd] in *; [|eauto].
  destruct e; cbn [snd]; eauto.
  destruct (records_log (loop_event h output_dir) h self "INFO"
              "Monitoring stopped"
              (fun ts => loop_event_log_events h self output_dir ts _ _) w2)
    as (t2 & Ht2 & HP2 & Hc2).
  destruct (log h self "INFO" "Monitoring stopped" w2) as [r w3].
  cbn [snd] in *. exists (t ++ t2). rewrite Ht2, Ht, app_assoc.
  split; [reflexivity|]. split; [now apply Forall_app|]. intros p.
  now rewrite Hc2, Hc, written_app, PyFacts.str_app_assoc.
Qed.

(** After the sinks were created a run never truncates anything. *)
Lemma monitor_system_trace h self (output_dir : string) (interval : Z)
  (ticks : list (tick_env F)) w :
  sinks_creatable h output_dir ->
  exists t,
    trace (monitor_system h self output_dir interval ticks w).2 =
    trace (create_sinks h output_dir w).2 ++ t /\
    Forall appends_only t.
Proof.
  intros Hok.
  destruct (monitor_system_records h self output_dir interval ticks w Hok)
    as (t & Ht & HP & _).
  exists t. split; [exact Ht|].
  eapply List.Forall_impl; [|exact HP]. apply loop_event_appends_only.
Qed.






(** C10 (as corrected): for every output directory that can be created
    and in which cpu.csv, fan.csv and mem.csv can be opened for writing,
    whatever the directory held, starting the sampler creates the
    directory and then truncates the three files, each receiving its
    header through the truncating handle, so that on entry to the loop
    each holds its header line and nothing else; every other file is as
    it was; the loop runs after that and never truncates again. *)
Theorem startup_truncates_sinks h self (output_dir : string) (interval : Z) w :
  sinks_creatable h output_dir ->
  let cpu := Py.path_join output_dir "cpu.csv" in
  let fan := Py.path_join output_dir "fan.csv" in
  let mem := Py.path_join output_dir "mem.csv" in
  let cpu_head := "Timestamp,User%,System%,Idle%" +:+ Py.nl in
  let fan_head :=
    "Timestamp,FAN1_RPM,FAN2_RPM,FAN3_RPM,FAN4_RPM,FANA_RPM" +:+ Py.nl in
  let mem_head :=
    "Timestamp,Total_Memory_MB,Used_Memory_MB,Free_Memory_MB,Shared_Memory_MB,Buffer_Cache_MB,Available_Memory_MB"
    +:+ Py.nl in
  let started := monitor_system (F := F) h self output_dir interval [] w in
  started.1 = None
  /\ trace started.2 =
     trace w ++
     [EvMakedirs output_dir;
      EvOpen cpu ModeW; EvWrite cpu ModeW cpu_head;
      EvOpen fan ModeW; EvWrite fan ModeW fan_head;
      EvOpen mem ModeW; EvWrite mem ModeW mem_head]
  /\ fs started.2 !! cpu = Some cpu_head
  /\ fs started.2 !! fan = Some fan_head
  /\ fs started.2 !! mem = Some mem_head
  /\ (forall q, q <> cpu -> q <> fan -> q <> mem ->
        fs started.2 !! q = fs w !! q)
  /\ (forall ticks : list (tick_env F),
        exists t,
          trace (monitor_system h self output_dir interval ticks w).2 =
          trace started.2 ++ t /\
          Forall appends_only t).
Proof.
  intros Hok. cbv zeta.
  change (Py.path_join output_dir "cpu.csv") with (cpu_path output_dir).
  change (Py.path_join output_dir "fan.csv") with (fan_path output_dir).
  change (Py.path_join output_dir "mem.csv") with (mem_path output_dir).
  change ("Timestamp,User%,System%,Idle%" +:+ Py.nl) with cpu_header.
  change ("Timestamp,FAN1_RPM,FAN2_RPM,FAN3_RPM,FAN4_RPM,FANA_RPM" +:+ Py.nl)
    with fan_header.
  change ("Timestamp,Total_Memory_MB,Used_Memory_MB,Free_Memory_MB,Shared_Memory_MB,Buffer_Cache_MB,Available_Memory_MB"
          +:+ Py.nl) with mem_header.
  unfold monitor_system at 1 2 3 4 5 6. cbn [sampling_loop].
  rewrite (create_sinks_run _ _ _ Hok). cbn [fst snd fs trace].
  destruct (sink_paths_distinct output_dir) as (Hcf & Hcm & Hfm).
  split; [reflexivity|]. split; [reflexivity|].
  split; [now rewrite !lookup_insert_ne, lookup_insert_eq by congruence|].
  split; [now rewrite lookup_insert_ne, lookup_insert_eq by congruence|].
  split; [now rewrite lookup_insert_eq|].
  split; [intros q Hc Hf Hm; now rewrite !lookup_insert_ne by congruence|].
  intros ticks.
  destruct (monitor_system_trace h self output_dir interval ticks w Hok)
    as (t & Ht & HP).
  rewrite (create_sinks_run _ _ _ Hok) in Ht. cbn [snd trace] in Ht.
  unfold monitor_system at 2. rewrite (create_sinks_run _ _ _ Hok).
  cbn [sampling_loop snd trace].
  eauto.
Qed.

(** *** The stop signal *)

Lemma tick_result h self (output_dir : string) (interval : Z) env w :
  (exists c, cpu_times_percent env = Ret c) ->
  (exists m, virtual_memory env = Ret m) ->
  (tick h self output_dir interval env w).1 = sleep env /\
  exists t, trace (tick h self output_dir interval env w).2 =
            t ++ [EvSleep interval].
Proof.
  intros [c Hc] [m Hm].
  destruct (fan_step_outcome h env) as [(out & fans & Hout & Hp)|Hfail].
  - rewrite (tick_ok _ _ _ _ _ _ _ _ _ _ Hc Hm Hout Hp). cbn [fst snd trace].
    split; [reflexivity|]. eexists.
    rewrite app_assoc.
    change [?a; ?b; ?c'; ?d; ?e; ?f; ?g; ?i; EvSleep interval]
      with ([a; b; c'; d; e; f; g; i] ++ [EvSleep interval]).
    now rewrite app_assoc.
  - rewrite (tick_fail _ _ _ _ _ _ _ _ Hc Hm Hfail). cbn [fst snd trace].
    split; [reflexivity|]. eexists. now rewrite !app_assoc.
Qed.

(** Iterations that complete hand over to the rest of the loop. *)
Lemma sampling_loop_completes h self (output_dir : string) (interval : Z)
  (before rest : list (tick_env F)) w :
  Forall completes before ->
  (sampling_loop h self output_dir interval before w).1 = None /\
  sampling_loop h self output_dir interval (before ++ rest) w =
  sampling_loop h self output_dir interval rest
    (sampling_loop h self output_dir interval before w).2.
Proof.
  intros Hall. revert w.
  induction Hall as [|env before (Hc & Hm & Hs) _ IH]; intros w;
    cbn [app sampling_loop]; [now split|].
  destruct (tick_result h self output_dir interval env w Hc Hm) as [Hr _].
  rewrite Hs in Hr.
  destruct (tick h self output_dir interval env w) as [[[]|e] w1];
    cbn [fst] in Hr; [|discriminate].
  apply IH.
Qed.

(** C9: in a run whose sinks were created, when the sleep of some
    iteration is interrupted by the stop signal, after any number of
    completed iterations, the call returns normally; what it does after
    the interrupted sleep is one call of the logger and nothing else: it
    prints the entry "[<time>] [INFO] Monitoring stopped", makes sure of
    the log directory and appends that entry and a line feed to the log.
    No file other than the log changes and later iterations never run.
    Until then the loop had printed nothing but fan warnings. *)
Theorem stop_signal_during_sleep h (dir output_dir : string) (interval : Z)
  (before after : list (tick_env F)) env w :
  sinks_creatable h output_dir ->
  Forall completes before ->
  (exists c, cpu_times_percent env = Ret c) ->
  (exists m, virtual_memory env = Ret m) ->
  sleep env = Raise KeyboardInterrupt ->
  let self := init dir in
  let log_dir := Py.path_join dir "logs" in
  let log_file := Py.path_join log_dir "servertest.log" in
  let w1 := (create_sinks h output_dir w).2 in
  let interrupted :=
    sampling_loop h self output_dir interval (before ++ [env]) w1 in
  let entry :=
    "[" +:+ strftime_now h (clock interrupted.2)
    +:+ "] [INFO] Monitoring stopped" in
  let final :=
    monitor_system h self output_dir interval (before ++ env :: after) w in
  interrupted.1 = Some KeyboardInterrupt
  /\ (exists t, trace interrupted.2 = t ++ [EvSleep interval])
  /\ (exists t, trace interrupted.2 = trace w1 ++ t /\
                Forall prints_fan_warnings t)
  /\ final.1 = Some (Ret tt)
  /\ trace final.2 =
     trace interrupted.2 ++
     [EvPrint entry; EvMakedirs log_dir; EvOpen log_file ModeA;
      EvWrite log_file ModeA (entry +:+ Py.nl)]
  /\ (forall p, p <> log_file ->
        content (fs final.2) p = content (fs interrupted.2) p)
  /\ content (fs final.2) log_file =
     content (fs interrupted.2) log_file +:+ entry +:+ Py.nl.
Proof.
  intros Hok Hall Hc Hm Hs. cbv zeta.
  unfold monitor_system. rewrite (create_sinks_run _ _ _ Hok). cbn [snd].
  set (w1 := World _ _ _).
  destruct (sampling_loop_completes h (init dir) output_dir interval before
              [env] w1 Hall) as [_ Hone].
  destruct (sampling_loop_completes h (init dir) output_dir interval before
              (env :: after) w1 Hall) as [_ Hmany].
  rewrite Hone, Hmany. clear Hone Hmany.
  destruct (sampling_loop_emits prints_fan_warnings) with
    (h := h) (self := init dir) (output_dir := output_dir)
    (interval := interval)
    (ticks := before ++ [env]) (w := w1) as (tw & Htw & HPw);
    try (intros; intros line' [=]; fail);
    [intros ts0 line [= <-]; exists ts0; reflexivity|].
  destruct (sampling_loop_completes h (init dir) output_dir interval before
              [env] w1 Hall) as [_ Hone].
  rewrite Hone in Htw. clear Hone.
  set (w2 := (sampling_loop h (init dir) output_dir interval before w1).2) in *.
  cbn [sampling_loop] in *.
  destruct (tick_result h (init dir) output_dir interval env w2 Hc Hm)
    as [Hr [t Ht]].
  rewrite Hs in Hr.
  destruct (tick h (init dir) output_dir interval env w2) as [[[]|e] w3];
    cbn [fst snd] in *; [discriminate|].
  injection Hr as ->. rewrite log_run. cbn [fst snd fs trace clock].
  pose proof (proj2 (String.eqb_neq _ _) (init_logs_dir_nonempty dir)) as Hdir.
  unfold log_events, log_store. rewrite Hdir.
  split; [reflexivity|]. split; [eauto|]. split; [eauto|].
  split; [reflexivity|]. split; [reflexivity|]. split.
  - intros p Hp. apply content_append_other. intros Heq. apply Hp.
    now rewrite <- Heq.
  - apply content_append_same.
Qed.

End SamplerFacts.

(** ** The statements at work on the sample machines *)




(** Rows left in the directory by an earlier run do not survive the
    start of the next one. *)
Lemma startup_truncates_sinks_witness :
  let before := World {[ "/tmp/out/cpu.csv" :=
                           "Timestamp,User%,System%,Idle%" +:+ Py.nl +:+
                           "2023-12-31 23:59:59,1.0,1.0,98.0" +:+ Py.nl ]}
                  [] 0 in
  let started := monitor_system (F := Z) stock_host (init "/opt/pkit")
                   "/tmp/out" 10 [] before in
  started.1 = None
  /\ fs started.2 !! "/tmp/out/cpu.csv" =
     Some ("Timestamp,User%,System%,Idle%" +:+ Py.nl)
  /\ fs started.2 !! "/tmp/out/fan.csv" =
     Some ("Timestamp,FAN1_RPM,FAN2_RPM,FAN3_RPM,FAN4_RPM,FANA_RPM" +:+ Py.nl)
  /\ fs started.2 !! "/tmp/out/mem.csv" =
     Some ("Timestamp,Total_Memory_MB,Used_Memory_MB,Free_Memory_MB,Shared_Memory_MB,Buffer_Cache_MB,Available_Memory_MB"
           +:+ Py.nl).
Proof.
  cbv zeta.
  destruct (startup_truncates_sinks (F := Z) stock_host (init "/opt/pkit")
              "/tmp/out" 10
              (World {[ "/tmp/out/cpu.csv" :=
                          "Timestamp,User%,System%,Idle%" +:+ Py.nl +:+
                          "2023-12-31 23:59:59,1.0,1.0,98.0" +:+ Py.nl ]}
                 [] 0))
    as (Hrun & _ & Hc & Hf & Hm & _).
  { split; [discriminate|]. repeat split. }
  split; [exact Hrun|]. split; [exact Hc|]. split; [exact Hf|exact Hm].
Defined.

(** With the empty string for the output directory the call raises at
    os.makedirs: no file is opened, and a cpu.csv that was there keeps
    its rows. *)
Lemma startup_truncates_sinks_counterexample :
  let before := World {[ "cpu.csv" :=
                           "Timestamp,User%,System%,Idle%" +:+ Py.nl +:+
                           "2023-12-31 23:59:59,1.0,1.0,98.0" +:+ Py.nl ]}
                  [] 0 in
  let started := monitor_system (F := Z) stock_host (init "/opt/pkit")
                   "" 10 [] before in
  Py.path_join "" "cpu.csv" = "cpu.csv"
  /\ started.1 = Some (Raise FileNotFoundError)
  /\ trace started.2 = [EvMakedirs ""]
  /\ fs started.2 !! "cpu.csv" =
     Some ("Timestamp,User%,System%,Idle%" +:+ Py.nl +:+
           "2023-12-31 23:59:59,1.0,1.0,98.0" +:+ Py.nl)
  /\ fs started.2 !! "fan.csv" = None
  /\ fs started.2 !! "mem.csv" = None.
Proof. vm_compute. repeat split. Qed.

(** Two iterations, an interrupted third, a fourth that never runs: the
    log holds the fan warning of the second and then the stop entry. *)
Lemma stop_signal_during_sleep_witness :
  let final := monitor_system stock_host (init "/opt/pkit") "/tmp/out" 10
                 ([good_tick; no_fan_tick] ++ last_tick :: [good_tick]) w0 in
  final.1 = Some (Ret tt)
  /\ content (fs final.2) "/opt/pkit/logs/servertest.log" =
     "[2024-01-01 00:00:02] [WARNING] Failed to get fan information" +:+ Py.nl
     +:+ "[2024-01-01 00:00:04] [INFO] Monitoring stopped" +:+ Py.nl.
Proof.
  cbv zeta.
  destruct (stop_signal_during_sleep stock_host "/opt/pkit"
              "/tmp/out" 10 [good_tick; no_fan_tick] [good_tick]
              last_tick w0) as (_ & _ & _ & Hfinal & _ & _ & Hlog).
  - split; [discriminate|]. repeat split.
  - repeat constructor; eexists; reflexivity.
  - eexists; reflexivity.
  - eexists; reflexivity.
  - reflexivity.
  - split; [exact Hfinal|]. etransitivity; [exact Hlog|].
    vm_compute. reflexivity.
Defined.

(** A path that does not exist. *)
Example missing_device :
  get_disk_info stock_host "/dev/doesnotexist" w0 = (Ret None, w0).
Proof. reflexivity. Qed.

(** Three iterations, the fan tool missing in the second: three CPU rows,
    three memory rows, two fan rows (each file also has its header, and
    splitting at line feeds leaves one empty piece after the last). *)
Example three_ticks_one_fan_failure :
  let w := (monitor_system stock_host (init "/opt/pkit") "/tmp/out" 10
              [good_tick; no_fan_tick; good_tick] w0).2 in
  (length (Py.split Py.LF (content (fs w) "/tmp/out/cpu.csv")),
   length (Py.split Py.LF (content (fs w) "/tmp/out/mem.csv")),
   length (Py.split Py.LF (content (fs w) "/tmp/out/fan.csv")))
  = (5, 5, 4)%nat.
Proof. vm_compute. reflexivity. Qed.

(** An NVMe device whose smart-log tool exits with status zero. *)
Example nvme_healthy :
  let r := check_disk_health lab_host (init "/opt/pkit") "/dev/nvme0n1" w0 in
  r.1 = Ret true /\
  List.filter is_exec (trace r.2) = [EvExec ["nvme"; "smart-log"; "/dev/nvme0n1"]] /\
  content (fs r.2) "/opt/pkit/logs/servertest.log" =
  "[2024-01-01 00:00:00] [INFO] Checking health of /dev/nvme0n1" +:+ Py.nl.
Proof. vm_compute. repeat split. Qed.

(** A SATA disk whose SMART tool exits with status one. *)
Example sda_unhealthy :
  let r := check_disk_health lab_host (init "/opt/pkit") "/dev/sda" w0 in
  r.1 = Ret false /\
  List.filter is_exec (trace r.2) = [EvExec ["smartctl"; "-H"; "/dev/sda"]] /\
  content (fs r.2) "/opt/pkit/logs/servertest.log" =
  "[2024-01-01 00:00:00] [INFO] Checking health of /dev/sda" +:+ Py.nl +:+
  "[2024-01-01 00:00:01] [ERROR] Failed to get health status for /dev/sda"
  +:+ Py.nl.
Proof. vm_compute. repeat split. Qed.

(** An NVMe namespace on which the ATA tool fails: the model comes from
    the "mn" line of the NVMe tool. *)
Example nvme_model_fallback :
  (get_disk_info lab_host "/dev/nvme0n1" w0).1 =
  Ret (Some {| size := 931; mounted := false;
               model := "Samsung SSD 970 EVO 1TB";
               device := "/dev/nvme0n1" |}).
Proof. reflexivity. Qed.

(** A sensor line without a column separator, and one whose reading
    column is blank, are parse errors. *)
Example fan_table_parse_errors :
  parse_fans (Py.split Py.LF "FAN1 4200 RPM") ∅ = Raise IndexError /\
  parse_fans (Py.split Py.LF "FAN1 |    | RPM") ∅ = Raise IndexError.
Proof. split; reflexivity. Qed.

(** Rows left in the directory by an earlier run do not survive the
    start of the next one. *)
Example previous_rows_erased :
  let before := World {[ "/tmp/out/cpu.csv" :=
                           cpu_header +:+ "2023-12-31 23:59:59,1.0,1.0,98.0"
                           +:+ Py.nl ]} [] 0 in
  let started := monitor_system (F := Z) stock_host (init "/opt/pkit")
                   "/tmp/out" 10 [] before in
  content (fs started.2) "/tmp/out/cpu.csv" = cpu_header.
Proof. vm_compute. reflexivity. Qed.

(** * Further properties of the code *)

(** ** The logger *)

Lemma count_lf_app (s t : string) :
  count_lf (s +:+ t) = count_lf s + count_lf t.
Proof.
  induction s as [|a s IH]; [reflexivity|].
  rewrite PyFacts.str_app_cons. cbn [count_lf]. rewrite IH. lia.
Qed.

(** X2: two calls of [log] in a row leave their entries in the log in
    call order, each with the clock reading taken at its own call. *)
Theorem log_entries_in_order (h : host) (dir l1 m1 l2 m2 : string) (w : world) :
  let self := init dir in
  let after := ((log h self l1 m1 ;; log h self l2 m2) w).2 in
  content (fs after) (log_path self) =
  content (fs w) (log_path self)
  +:+ (log_message (strftime_now h (clock w)) l1 m1 +:+ Py.nl)
  +:+ (log_message (strftime_now h (S (clock w))) l2 m2 +:+ Py.nl).
Proof.
  cbv zeta. unfold bind. rewrite log_run, log_run. cbn [snd fs trace clock].
  unfold log_store.
  rewrite (proj2 (String.eqb_neq _ _) (init_logs_dir_nonempty dir)).
  now rewrite !content_append_same, PyFacts.str_app_assoc.
Qed.

(** X3: an entry adds one line feed to the log plus those contained in
    the timestamp, the level and the message: it is a single line exactly
    when none of the three contains a line feed. *)
Theorem log_entry_line_feeds (h : host) (dir level message : string) (w : world) :
  let self := init dir in
  let ts := strftime_now h (clock w) in
  let after := (log h self level message w).2 in
  count_lf (content (fs after) (log_path self)) =
  count_lf (content (fs w) (log_path self))
  + (count_lf ts + count_lf level + count_lf message + 1).
Proof.
  cbv zeta. rewrite log_run. cbn [snd fs]. unfold log_store.
  rewrite (proj2 (String.eqb_neq _ _) (init_logs_dir_nonempty dir)).
  rewrite content_append_same. unfold log_message.
  rewrite !count_lf_app. cbn [count_lf Py.nl Ascii.eqb Py.LF]. cbn. lia.
Qed.

(** ** check_disk_health, beyond the exit status *)

(** X4: when the chosen tool cannot be started (missing binary,
    permission denied) the exception reaches the caller; the INFO entry
    was logged, the launch was attempted, and no ERROR entry is written. *)
Theorem check_disk_health_launch_fault (h : host) (self : SystemMonitor)
  (device : string) (w : world) (e : exn) :
  let cmd := if Py.contains "nvme" device
             then ["nvme"; "smart-log"; device]
             else ["smartctl"; "-H"; device] in
  subprocess h cmd = NotStarted e ->
  e <> CalledProcessError ->
  (check_disk_health h self device w).1 = Raise e
  /\ trace (check_disk_health h self device w).2 =
     trace w ++
     log_events self (strftime_now h (clock w)) "INFO"
       ("Checking health of " +:+ device) ++ [EvExec cmd].
Proof.
  cbv zeta. intros Hp He. rewrite check_disk_health_run. cbv zeta.
  rewrite Hp. cbn [call_status]. rewrite (exn_eqb_neq _ _ He).
  split; reflexivity.
Qed.

Lemma check_disk_health_launch_fault_witness :
  (check_disk_health stock_host (init "/opt/pkit") "/dev/sda" w0).1
  = Raise FileNotFoundError.
Proof.
  apply (check_disk_health_launch_fault stock_host (init "/opt/pkit")
           "/dev/sda" w0 FileNotFoundError); [reflexivity|discriminate].
Defined.

Lemma startswith_contains (s pre p : string) :
  Py.contains p pre = true -> Py.startswith s pre = true ->
  Py.contains p s = true.
Proof.
  intros Hc Hs. apply PyFacts.contains_iff in Hc as (a & b & ->).
  apply PyFacts.prefix_iff in Hs as [post ->].
  apply PyFacts.contains_iff. exists a, (b +:+ post).
  now rewrite !PyFacts.str_app_assoc.
Qed.

(** X5: every path for which [get_disk_info] would try the NVMe identify
    tool (it starts with /dev/nvme) is health-checked with the NVMe
    smart-log tool; the health check's own test is the weaker
    "contains nvme", so the converse fails. *)
Theorem nvme_namespace_health_tool :
  (forall (h : host) (self : SystemMonitor) (device : string) (w : world),
      Py.startswith device "/dev/nvme" = true ->
      List.filter is_exec (trace (check_disk_health h self device w).2) =
      List.filter is_exec (trace w) ++ [EvExec ["nvme"; "smart-log"; device]])
  /\ (exists device,
        Py.startswith device "/dev/nvme" = false /\
        forall (h : host) (self : SystemMonitor) (w : world),
          List.filter is_exec (trace (check_disk_health h self device w).2) =
          List.filter is_exec (trace w) ++
          [EvExec ["nvme"; "smart-log"; device]]).
Proof.
  assert (Hgen : forall h self device w,
    Py.contains "nvme" device = true ->
    List.filter is_exec (trace (check_disk_health h self device w).2) =
    List.filter is_exec (trace w) ++ [EvExec ["nvme"; "smart-log"; device]]).
  { intros h self device w Hc. rewrite check_disk_health_run. cbv zeta.
    rewrite Hc.
    destruct (call_status _) as [z|e];
      [|destruct (exn_eqb e CalledProcessError)]; cbn [snd trace];
      rewrite !List.filter_app, !log_events_no_exec; cbn [List.filter is_exec];
      now rewrite ?app_nil_r. }
  split.
  - intros h self device w Hs. apply Hgen.
    now apply (startswith_contains device "/dev/nvme").
  - exists "/srv/images/nvme-backup.img". split; [reflexivity|].
    intros h self w. now apply Hgen.
Qed.

Lemma nvme_namespace_health_tool_witness :
  List.filter is_exec
    (trace (check_disk_health lab_host (init "/opt/pkit") "/dev/nvme0n1" w0).2)
  = List.filter is_exec (trace w0) ++
    [EvExec ["nvme"; "smart-log"; "/dev/nvme0n1"]].
Proof.
  apply (proj1 nvme_namespace_health_tool lab_host (init "/opt/pkit")
           "/dev/nvme0n1" w0). reflexivity.
Defined.

(** X6: the only file a health check touches is the log, which gains the
    INFO entry and, exactly when the result is [False], the ERROR entry
    after it; every other file is left as it was. *)
Theorem check_disk_health_only_logs (h : host) (dir device : string)
  (w : world) :
  let self := init dir in
  let after := (check_disk_health h self device w).2 in
  let announced :=
    log_message (strftime_now h (clock w)) "INFO"
      ("Checking health of " +:+ device) +:+ Py.nl in
  let failure :=
    log_message (strftime_now h (S (clock w))) "ERROR"
      ("Failed to get health status for " +:+ device) +:+ Py.nl in
  (forall q, q <> log_path self -> content (fs after) q = content (fs w) q)
  /\ ((check_disk_health h self device w).1 = Ret false ->
      content (fs after) (log_path self) =
      content (fs w) (log_path self) +:+ announced +:+ failure)
  /\ ((check_disk_health h self device w).1 <> Ret false ->
      content (fs after) (log_path self) =
      content (fs w) (log_path self) +:+ announced).
Proof.
  cbv zeta. rewrite check_disk_health_run. cbv zeta.
  pose proof (proj2 (String.eqb_neq _ _) (init_logs_dir_nonempty dir)) as Hdir.
  destruct (call_status _) as [z|e];
    [|destruct (exn_eqb e CalledProcessError)]; cbn [fst snd fs];
    unfold log_store; rewrite Hdir; (split; [|split]).
  - intros q Hq. now rewrite content_append_other by congruence.
  - discriminate.
  - intros _. apply content_append_same.
  - intros q Hq. now rewrite !content_append_other by congruence.
  - intros _. now rewrite !content_append_same, PyFacts.str_app_assoc.
  - congruence.
  - intros q Hq. now rewrite content_append_other by congruence.
  - discriminate.
  - intros _. apply content_append_same.
Qed.

(** ** get_disk_info, beyond the fields *)

Lemma resolve_model_world (h : host) (dev : string) (w : world) :
  fs (resolve_model h dev w).2 = fs w /\
  clock (resolve_model h dev w).2 = clock w /\
  (trace (resolve_model h dev w).2 = trace w ++ [EvExec (hdparm_cmd dev)] \/
   trace (resolve_model h dev w).2 =
   trace w ++ [EvExec (hdparm_cmd dev); EvExec (nvme_id_cmd dev)]).
Proof.
  destruct (resolve_model_cases h dev w)
    as [(out & _ & ->)|[(e & _ & _ & ->)|(e & _ & _ & ->)]];
    cbn [snd fs trace clock]; auto.
Qed.

(** X7: [get_disk_info] is silent: it writes no file, prints and logs
    nothing and does not read the clock; all it does to the outside is to
    launch hdparm, and after it possibly nvme id-ctrl, at most once each. *)
Theorem get_disk_info_effects (h : host) (dev : string) (w : world) :
  let after := (get_disk_info h dev w).2 in
  fs after = fs w
  /\ clock after = clock w
  /\ (trace after = trace w \/
      trace after = trace w ++ [EvExec (hdparm_cmd dev)] \/
      trace after =
      trace w ++ [EvExec (hdparm_cmd dev); EvExec (nvme_id_cmd dev)]).
Proof.
  cbv zeta. unfold get_disk_info, bind, lift, ret.
  destruct (os_path_exists h dev); cbn [negb]; [|now auto].
  destruct (os_path_isblock h dev) as [[|]|e]; cbn [negb]; [|now auto..].
  unfold try_except, disk_info_body, bind, lift, ret.
  destruct (os_stat_st_size h dev) as [bytes|e]; [|now auto].
  destruct (proc_mounts h) as [lines|e]; [|now auto].
  destruct (resolve_model_world h dev w) as (Hfs & Hclock & Htrace).
  destruct (resolve_model h dev w) as [[m|e] w1]; cbn [snd] in *; tauto.
Qed.

(** X8: when the size of the device cannot be read or the mount table
    cannot be opened, the answer is absence and no tool is launched. *)
Theorem get_disk_info_unreadable (h : host) (dev : string) (w : world) :
  os_path_exists h dev = true ->
  os_path_isblock h dev = Ret true ->
  (exists e, os_stat_st_size h dev = Raise e) \/
  (exists e, proc_mounts h = Raise e) ->
  get_disk_info h dev w = (Ret None, w).
Proof.
  intros Hex Hblk Hfault. rewrite get_disk_info_past_guard by assumption.
  unfold try_except, disk_info_body, bind, lift, ret.
  destruct Hfault as [[e ->]|[e Hmt]]; [reflexivity|].
  destruct (os_stat_st_size h dev); now rewrite ?Hmt.
Qed.

Lemma get_disk_info_unreadable_witness :
  get_disk_info odd_host "/dev/sdb" w0 = (Ret None, w0).
Proof.
  apply (get_disk_info_unreadable odd_host "/dev/sdb" w0);
    [reflexivity|reflexivity|left; eexists; reflexivity].
Defined.

(** *** The model is trimmed *)

Lemma lstrip_head (s : string) (a : ascii) (rest : string) :
  Py.lstrip s = String a rest -> Py.isspace a = false.
Proof.
  induction s as [|b s IH]; cbn [Py.lstrip]; [discriminate|].
  destruct (Py.isspace b) eqn:Hb; [exact IH|]. intros [= <- _]. exact Hb.
Qed.

Lemma rstrip_head (s : string) (a : ascii) (rest : string) :
  Py.rstrip s = String a rest -> exists rest', s = String a rest'.
Proof.
  destruct s as [|b s]; cbn [Py.rstrip]; [discriminate|].
  destruct (Py.rstrip s); [destruct (Py.isspace b)|];
    intros [=]; subst; eauto.
Qed.

Lemma rstrip_last (s : string) (a : ascii) :
  last_char (Py.rstrip s) = Some a -> Py.isspace a = false.
Proof.
  induction s as [|b s IH]; cbn [Py.rstrip]; [discriminate|].
  destruct (Py.rstrip s) as [|c kept] eqn:Hk.
  - destruct (Py.isspace b) eqn:Hb; cbn [last_char]; [discriminate|].
    intros [= <-]. exact Hb.
  - cbn [last_char] in *. destruct (last_char kept); exact IH.
Qed.

Lemma strip_trimmed (s : string) : trimmed (Py.strip s).
Proof.
  unfold trimmed, Py.strip. split.
  - intros a rest Hs. apply rstrip_head in Hs as [rest' Hs].
    exact (lstrip_head _ _ _ Hs).
  - apply rstrip_last.
Qed.

Lemma scan_model_number_value (lines : list string) (init m : string) :
  scan_model_number lines init = Ret m -> m = init \/ exists v, m = Py.strip v.
Proof.
  induction lines as [|l lines IH]; cbn [scan_model_number].
  - intros [= <-]. now left.
  - destruct (Py.contains "Model Number:" l); [|exact IH].
    destruct (item _ 1) as [v|e]; cbn [obind]; [|discriminate].
    intros [= <-]. eauto.
Qed.

Lemma scan_mn_value (lines : list string) (init m : string) :
  scan_mn lines init = Ret m -> m = init \/ exists v, m = Py.strip v.
Proof.
  induction lines as [|l lines IH]; cbn [scan_mn].
  - intros [= <-]. now left.
  - destruct (Py.startswith l "mn"); [|exact IH].
    destruct (item _ 1) as [v|e]; cbn [obind]; [|discriminate].
    intros [= <-]. eauto.
Qed.

Lemma resolve_model_value (h : host) (dev : string) (w : world) (m : string) :
  (resolve_model h dev w).1 = Ret m -> m = "" \/ exists v, m = Py.strip v.
Proof.
  destruct (resolve_model_cases h dev w)
    as [(out & _ & ->)|[(e & _ & _ & ->)|(e & _ & _ & ->)]]; cbn [fst].
  - apply scan_model_number_value.
  - intros [= <-]. now left.
  - destruct (decoded_output h _) as [out|e']; [|intros [= <-]; now left].
    destruct (scan_mn _ _) as [m'|e'] eqn:Hs; [|intros [= <-]; now left].
    intros [= <-]. exact (scan_mn_value _ _ _ Hs).
Qed.

(** X9: every record that is returned names the path that was asked
    for, and its model has no leading or trailing blank (it may be
    empty). *)
Theorem get_disk_info_record_shape (h : host) (dev : string) (w w' : world)
  (info : DeviceInfo) :
  get_disk_info h dev w = (Ret (Some info), w') ->
  device info = dev /\ trimmed (model info).
Proof.
  intros Hrun.
  destruct (get_disk_info_some_inv _ _ _ _ _ Hrun)
    as (b & lines & m & _ & _ & _ & _ & Hm & ->).
  cbn [device model]. split; [reflexivity|].
  destruct (resolve_model_value _ _ _ _ Hm) as [->|[v ->]].
  - split; [discriminate|discriminate].
  - apply strip_trimmed.
Qed.

Lemma get_disk_info_record_shape_witness :
  device {| size := 465; mounted := true; model := "WDC WD5000AAKX";
            device := "/dev/sda" |} = "/dev/sda" /\
  trimmed "WDC WD5000AAKX".
Proof.
  apply (get_disk_info_record_shape lab_host "/dev/sda" w0
           (World ∅ [EvExec (hdparm_cmd "/dev/sda")] 0)
           {| size := 465; mounted := true; model := "WDC WD5000AAKX";
              device := "/dev/sda" |}).
  reflexivity.
Defined.

(** X10: on the NVMe fallback the first line that begins with "mn"
    decides even when it has no colon: the lookup then fails inside the
    inner [try], later lines are not looked at, and the record is returned
    with an empty model. *)
Theorem nvme_model_line_without_colon (h : host) (dev : string) (w : world)
  (out line : string) :
  os_path_exists h dev = true ->
  os_path_isblock h dev = Ret true ->
  (exists bytes, os_stat_st_size h dev = Ret bytes) ->
  (exists lines, proc_mounts h = Ret lines) ->
  (exists e, decoded_output h (subprocess h (hdparm_cmd dev)) = Raise e) ->
  Py.startswith dev "/dev/nvme" = true ->
  decoded_output h (subprocess h (nvme_id_cmd dev)) = Ret out ->
  first_match (fun l => Py.startswith l "mn") (Py.split Py.LF out) line ->
  Py.contains ":" line = false ->
  exists info w',
    get_disk_info h dev w = (Ret (Some info), w') /\ model info = "".
Proof.
  intros Hex Hblk [bytes Hst] [lines Hmt] [e Hata] Hsw Hnv Hfirst Hno.
  rewrite get_disk_info_past_guard by assumption.
  unfold try_except, disk_info_body, bind, lift, ret. rewrite Hst, Hmt.
  destruct (resolve_model_cases h dev w)
    as [(o & Ho & _)|[(e' & _ & Hsw' & _)|(e' & _ & _ & ->)]];
    [congruence|congruence|].
  rewrite Hnv, (scan_mn_no_colon _ _ _ Hfirst Hno).
  eexists _, _. split; reflexivity.
Qed.

Lemma nvme_model_line_without_colon_witness :
  exists info w',
    get_disk_info odd_host "/dev/nvme1n1" w0 = (Ret (Some info), w') /\
    model info = "".
Proof.
  apply (nvme_model_line_without_colon odd_host "/dev/nvme1n1" w0
           ("vid : 0x144d" +:+ Py.nl +:+ "mn SAMSUNG" +:+ Py.nl +:+
            "mn : never read" +:+ Py.nl) "mn SAMSUNG");
    try reflexivity; try (eexists; reflexivity).
  exists ["vid : 0x144d"], ["mn : never read"; ""].
  split; [reflexivity|]. split; [|reflexivity].
  constructor; [reflexivity|constructor].
Defined.

(** ** The sampler, beyond the claims *)
Section SamplerMore.
Context {F : Type} `{PyFloat F}.
Implicit Types (h : host) (self : SystemMonitor) (env : tick_env F)
  (w : world).

Lemma tick_cpu_fault h self (output_dir : string) (interval : Z) env w
  (e : exn) :
  cpu_times_percent env = Raise e ->
  tick h self output_dir interval env w =
  (Raise e, World (fs w) (trace w) (S (clock w))).
Proof.
  intros Hc. unfold tick, bind, timestamp_now, lift. now rewrite Hc.
Qed.

Lemma tick_mem_fault h self (output_dir : string) (interval : Z) env w
  (c : cpu_sample F) (e : exn) :
  cpu_times_percent env = Ret c -> virtual_memory env = Raise e ->
  tick h self output_dir interval env w =
  (Raise e,
   World (append_to (cpu_path output_dir)
            (cpu_row (strftime_now h (clock w)) c) (fs w))
         (trace w ++
          [EvOpen (cpu_path output_dir) ModeA;
           EvWrite (cpu_path output_dir) ModeA
             (cpu_row (strftime_now h (clock w)) c)])
         (S (clock w))).
Proof.
  intros Hc Hm. unfold tick. unfold bind at 1 2, timestamp_now, lift.
  rewrite Hc. rewrite append_row_run. unfold bind at 1, lift. now rewrite Hm.
Qed.

(** A run whose first iterations complete, seen from the iteration that
    follows them. *)
Lemma monitor_system_after h self (output_dir : string) (interval : Z)
  (before after : list (tick_env F)) env w :
  sinks_creatable h output_dir ->
  Forall completes before ->
  monitor_system h self output_dir interval (before ++ env :: after) w =
  match tick h self output_dir interval env
          (sampling_loop h self output_dir interval before
             (create_sinks h output_dir w).2).2 with
  | (Ret _, w') =>
      match sampling_loop h self output_dir interval after w' with
      | (None, w2) => (None, w2)
      | (Some KeyboardInterrupt, w2) =>
          let '(r, w3) := log h self "INFO" "Monitoring stopped" w2 in
          (Some r, w3)
      | (Some e, w2) => (Some (Raise e), w2)
      end
  | (Raise KeyboardInterrupt, w') =>
      let '(r, w3) := log h self "INFO" "Monitoring stopped" w' in
      (Some r, w3)
  | (Raise e, w') => (Some (Raise e), w')
  end.
Proof.
  intros Hok Hall. unfold monitor_system.
  rewrite (create_sinks_run _ _ _ Hok). cbn [snd].
  set (w1 := World _ _ _).
  destruct (sampling_loop_completes h self output_dir interval before
              (env :: after) w1 Hall) as [_ ->].
  cbn [sampling_loop].
  now destruct (tick h self output_dir interval env _) as [[[]|e] w'].
Qed.

(** X11: once the sinks were created, a fault of the CPU reading ends
    the run at once: nothing of that iteration is written, not even a
    log entry, and the exception reaches the caller; only when the
    exception is the stop signal does the call end normally, with the
    "Monitoring stopped" entry. *)
Theorem cpu_capture_fault h self (output_dir : string) (interval : Z)
  (before after : list (tick_env F)) env w (e : exn) :
  sinks_creatable h output_dir ->
  Forall completes before ->
  cpu_times_percent env = Raise e ->
  let reached :=
    (sampling_loop h self output_dir interval before
       (create_sinks h output_dir w).2).2 in
  let final :=
    monitor_system h self output_dir interval (before ++ env :: after) w in
  (e <> KeyboardInterrupt ->
   final.1 = Some (Raise e) /\ trace final.2 = trace reached /\
   fs final.2 = fs reached)
  /\ (e = KeyboardInterrupt ->
      final.1 = Some (Ret tt) /\
      trace final.2 =
      trace reached ++
      log_events self (strftime_now h (S (clock reached))) "INFO"
        "Monitoring stopped").
Proof.
  intros Hok Hall Hc. cbv zeta.
  rewrite (monitor_system_after _ _ _ _ _ _ _ _ Hok Hall).
  rewrite (tick_cpu_fault _ _ _ _ _ _ _ Hc). split.
  - intros He. destruct e; try congruence; cbn [fst snd fs trace]; auto.
  - intros ->. rewrite log_run. cbn [fst snd fs trace clock]. auto.
Qed.

(** X12: once the sinks were created, a fault of the memory reading ends
    the run after the CPU row of that iteration was appended and before
    its memory row: cpu.csv is one row ahead of mem.csv, fan.csv and the
    log are untouched, and the exception reaches the caller. *)
Theorem memory_capture_fault h self (output_dir : string) (interval : Z)
  (before after : list (tick_env F)) env w (c : cpu_sample F) (e : exn) :
  sinks_creatable h output_dir ->
  Forall completes before ->
  cpu_times_percent env = Ret c ->
  virtual_memory env = Raise e ->
  e <> KeyboardInterrupt ->
  let reached :=
    (sampling_loop h self output_dir interval before
       (create_sinks h output_dir w).2).2 in
  let row := cpu_row (strftime_now h (clock reached)) c in
  let final :=
    monitor_system h self output_dir interval (before ++ env :: after) w in
  final.1 = Some (Raise e)
  /\ trace final.2 =
     trace reached ++
     [EvOpen (cpu_path output_dir) ModeA;
      EvWrite (cpu_path output_dir) ModeA row]
  /\ content (fs final.2) (cpu_path output_dir) =
     content (fs reached) (cpu_path output_dir) +:+ row
  /\ (forall q, q <> cpu_path output_dir ->
        content (fs final.2) q = content (fs reached) q).
Proof.
  intros Hok Hall Hc Hm He. cbv zeta.
  rewrite (monitor_system_after _ _ _ _ _ _ _ _ Hok Hall).
  rewrite (tick_mem_fault _ _ _ _ _ _ _ _ Hc Hm).
  destruct e; try congruence; cbn [fst snd fs trace];
    (split; [reflexivity|]); (split; [reflexivity|]);
    (split; [apply content_append_same|]);
    intros q Hq; apply content_append_other; congruence.
Qed.

(** X13: a stop signal that arrives while the fan step is running is
    caught by the bare [except] of that step: a fan warning is logged,
    the iteration goes on to its sleep and the loop continues with the
    next iteration. *)
Theorem stop_signal_in_fan_step h self (output_dir : string) (interval : Z)
  env (rest : list (tick_env F)) w (c : cpu_sample F) (m : mem_sample) :
  cpu_times_percent env = Ret c ->
  virtual_memory env = Ret m ->
  decoded_output h (ipmitool env) = Raise KeyboardInterrupt ->
  sleep env = Ret tt ->
  let ts := strftime_now h (clock w) in
  let w' := (tick h self output_dir interval env w).2 in
  (tick h self output_dir interval env w).1 = Ret tt
  /\ trace w' =
     trace w ++
     [EvOpen (cpu_path output_dir) ModeA;
      EvWrite (cpu_path output_dir) ModeA (cpu_row ts c);
      EvOpen (mem_path output_dir) ModeA;
      EvWrite (mem_path output_dir) ModeA (mem_row ts m);
      EvExec ipmitool_cmd] ++
     log_events self (strftime_now h (S (clock w))) "WARNING"
       "Failed to get fan information" ++
     [EvSleep interval]
  /\ sampling_loop h self output_dir interval (env :: rest) w =
     sampling_loop h self output_dir interval rest w'.
Proof.
  intros Hc Hm Hfan Hs. cbv zeta. cbn [sampling_loop].
  rewrite (tick_fail h self output_dir interval env w c m Hc Hm)
    by (left; eauto).
  rewrite Hs. cbn [fst snd trace]. auto.
Qed.

(** *** Row counts *)

Lemma row_opens_app (p : string) (t1 t2 : list event) :
  row_opens p (t1 ++ t2) = row_opens p t1 + row_opens p t2.
Proof. unfold row_opens. now rewrite List.filter_app, length_app. Qed.

Lemma row_opens_log_events self (p ts level message : string) :
  log_path self <> p -> row_opens p (log_events self ts level message) = 0.
Proof.
  intros Hne. unfold log_events, row_opens.
  destruct (String.eqb (logs_dir self) ""); cbn [List.filter is_append_open];
    [reflexivity|].
  now rewrite (proj2 (String.eqb_neq _ _) Hne).
Qed.

(** Rewriting with what is known about equality of the four paths. *)
Ltac path_tests output_dir self :=
  let Hcf := fresh in let Hcm := fresh in let Hfm := fresh in
  destruct (sink_paths_distinct output_dir) as (Hcf & Hcm & Hfm);
  pose proof (fun a b (Hne : a <> b) => proj2 (String.eqb_neq a b) Hne)
    as Hneq;
  rewrite ?String.eqb_refl, ?(Hneq _ _ Hcf), ?(Hneq _ _ Hcm),
    ?(Hneq _ _ Hfm), ?(Hneq _ _ (not_eq_sym Hcf)),
    ?(Hneq _ _ (not_eq_sym Hcm)), ?(Hneq _ _ (not_eq_sym Hfm)).

Lemma tick_row_opens h self (output_dir : string) (interval : Z) env w :
  (exists c, cpu_times_percent env = Ret c) ->
  (exists m, virtual_memory env = Ret m) ->
  exists t,
    trace (tick h self output_dir interval env w).2 = trace w ++ t
    /\ row_opens (cpu_path output_dir) t = 1
    /\ row_opens (mem_path output_dir) t = 1
    /\ row_opens (fan_path output_dir) t = if fan_reads h env then 1 else 0.
Proof.
  intros [c Hc] [m Hm].
  destruct (log_path_not_sink self output_dir) as (Hlc & Hlf & Hlm).
  destruct (fan_step_outcome h env) as [(out & fans & Hout & Hp)|Hfail].
  - rewrite (tick_ok _ _ _ _ _ _ _ _ _ _ Hc Hm Hout Hp). cbn [snd trace].
    eexists. split; [reflexivity|].
    unfold fan_reads. rewrite Hout, Hp.
    unfold row_opens. cbn [app List.filter is_append_open].
    path_tests output_dir self. cbn. auto.
  - rewrite (tick_fail _ _ _ _ _ _ _ _ Hc Hm Hfail). cbn [snd trace].
    eexists. split; [reflexivity|].
    assert (Hreads : fan_reads h env = false).
    { unfold fan_reads.
      destruct Hfail as [[e ->]|(out & e & -> & ->)]; reflexivity. }
    rewrite Hreads, !row_opens_app, !row_opens_log_events by assumption.
    unfold row_opens. cbn [List.filter is_append_open].
    path_tests output_dir self. cbn. auto.
Qed.

Lemma sampling_loop_row_opens h self (output_dir : string) (interval : Z)
  (ticks : list (tick_env F)) w :
  Forall completes ticks ->
  exists t,
    trace (sampling_loop h self output_dir interval ticks w).2 = trace w ++ t
    /\ row_opens (cpu_path output_dir) t = length ticks
    /\ row_opens (mem_path output_dir) t = length ticks
    /\ row_opens (fan_path output_dir) t =
       length (List.filter (fan_reads h) ticks).
Proof.
  intros Hall. revert w.
  induction Hall as [|env ticks (Hc & Hm & Hs) _ IH]; intros w;
    cbn [sampling_loop List.filter length].
  - exists []. now rewrite app_nil_r.
  - destruct (tick_row_opens h self output_dir interval env w Hc Hm)
      as (t1 & Ht1 & Hc1 & Hm1 & Hf1).
    destruct (tick_result h self output_dir interval env w Hc Hm) as [Hr _].
    rewrite Hs in Hr.
    destruct (tick h self output_dir interval env w) as [[[]|e] w1];
      cbn [fst snd] in *; [|discriminate].
    destruct (IH w1) as (t2 & Ht2 & Hc2 & Hm2 & Hf2).
    exists (t1 ++ t2). rewrite Ht2, Ht1, app_assoc, !row_opens_app.
    split; [reflexivity|]. rewrite Hc1, Hm1, Hf1, Hc2, Hm2, Hf2.
    destruct (fan_reads h env); cbn [length]; auto.
Qed.

(** X14: once the sinks were created and while every iteration
    completes, the run is still going and has appended one CPU row and
    one memory row per iteration, and one fan row for each iteration whose
    fan step succeeded: fan.csv never has more rows than the other two. *)
Theorem row_counts h self (output_dir : string) (interval : Z)
  (ticks : list (tick_env F)) w :
  sinks_creatable h output_dir ->
  Forall completes ticks ->
  let final := monitor_system h self output_dir interval ticks w in
  final.1 = None
  /\ exists t,
       trace final.2 = trace w ++ t
       /\ row_opens (cpu_path output_dir) t = length ticks
       /\ row_opens (mem_path output_dir) t = length ticks
       /\ row_opens (fan_path output_dir) t =
          length (List.filter (fan_reads h) ticks)
       /\ row_opens (fan_path output_dir) t <= length ticks.
Proof.
  intros Hok Hall. cbv zeta. unfold monitor_system.
  rewrite (create_sinks_run _ _ _ Hok). set (w1 := World _ _ _).
  destruct (sampling_loop_completes h self output_dir interval ticks [] w1
              Hall) as [Hnone _].
  destruct (sampling_loop_row_opens h self output_dir interval ticks w1 Hall)
    as (t & Ht & Hc & Hm & Hf).
  destruct (sampling_loop h self output_dir interval ticks w1) as [[e|] w2];
    cbn [fst snd] in *; [discriminate|].
  split; [reflexivity|]. subst w1. cbn [trace] in Ht.
  rewrite <- app_assoc in Ht. eexists. split; [exact Ht|].
  rewrite !row_opens_app, Hc, Hm, Hf.
  assert (Hstart : forall p,
    row_opens p
      [EvMakedirs output_dir;
       EvOpen (cpu_path output_dir) ModeW;
       EvWrite (cpu_path output_dir) ModeW cpu_header;
       EvOpen (fan_path output_dir) ModeW;
       EvWrite (fan_path output_dir) ModeW fan_header;
       EvOpen (mem_path output_dir) ModeW;
       EvWrite (mem_path output_dir) ModeW mem_header] = 0)
    by reflexivity.
  rewrite !Hstart. cbn [Nat.add].
  repeat split; try reflexivity.
  apply List.filter_length_le.
Qed.

(** *** What a run touches *)

(** X15: for every output directory and every monitor the three sinks
    and the log are four different paths, also when the output directory
    is the log directory: no write to one of them can land in another. *)
Theorem destinations_distinct self (output_dir : string) :
  NoDup [cpu_path output_dir; fan_path output_dir; mem_path output_dir;
         log_path self].
Proof.
  destruct (sink_paths_distinct output_dir) as (Hcf & Hcm & Hfm).
  destruct (log_path_not_sink self output_dir) as (Hlc & Hlf & Hlm).
  repeat (apply NoDup_cons_2; [rewrite ?elem_of_cons, elem_of_nil; intuition congruence|]).
  apply NoDup_nil_2.
Qed.

Lemma emits_open_w (P : event -> Prop) (p : string) :
  P (EvOpen p ModeW) -> emits P (open_w p).
Proof.
  intros He w. exists [EvOpen p ModeW]. split; [reflexivity|].
  now constructor.
Qed.

Lemma sampling_loop_emits_all (P : event -> Prop) h self
  (output_dir : string) (interval : Z) :
  (forall env, emits P (tick h self output_dir interval env)) ->
  forall (ticks : list (tick_env F)) w,
  exists t,
    trace (sampling_loop h self output_dir interval ticks w).2 = trace w ++ t /\
    Forall P t.
Proof.
  intros Htick ticks. induction ticks as [|env ticks IH]; intros w;
    cbn [sampling_loop].
  - exists []. now rewrite app_nil_r.
  - destruct (Htick env w) as (t1 & Ht1 & HP1).
    destruct (tick h self output_dir interval env w) as [[[]|e] w1];
      cbn [snd] in *.
    + destruct (IH w1) as (t2 & Ht2 & HP2). exists (t1 ++ t2).
      rewrite Ht2, Ht1, app_assoc. split; [reflexivity|].
      now apply Forall_app.
    + exists t1. now split.
Qed.

Lemma log_events_own self (output_dir : string) (interval : Z)
  (ts level message : string) :
  Forall (sampler_event self output_dir interval)
    (log_events self ts level message).
Proof.
  unfold log_events. destruct (String.eqb (logs_dir self) "");
    repeat (apply List.Forall_cons; [cbn; auto 10|]); apply List.Forall_nil.
Qed.

Lemma emits_tick_own h self (output_dir : string) (interval : Z) env :
  emits (sampler_event self output_dir interval)
    (tick h self output_dir interval env).
Proof.
  unfold tick, fan_step, check_output_decode.
  repeat first
    [ apply emits_try_except
    | apply emits_log; intros ?; apply log_events_own
    | apply emits_bind; [|intros ?]
    | apply emits_timestamp_now | apply emits_write_channels; intros ?
    | apply emits_emit | apply emits_lift | apply emits_open_a
    | apply emits_write ]; cbn; auto 10.
Qed.

Lemma emits_create_sinks_own h self (output_dir : string) (interval : Z) :
  emits (sampler_event self output_dir interval) (create_sinks h output_dir).
Proof.
  unfold create_sinks, makedirs, create.
  destruct (String.eqb output_dir "");
    repeat first
      [ apply emits_bind; [|intros ?]
      | apply emits_emit | apply emits_lift | apply emits_open_w
      | apply emits_write ];
    cbn; auto 10.
Qed.

Section Keeps.
Context (q : string).

Lemma keeps_unchanged {A} (m : exec A) :
  (forall w, fs (m w).2 = fs w) -> keeps_file q m.
Proof. intros Hsame w. now rewrite Hsame. Qed.

Lemma keeps_bind {A B} (m : exec A) (k : A -> exec B) :
  keeps_file q m -> (forall a, keeps_file q (k a)) -> keeps_file q (bind m k).
Proof.
  intros Hm Hk w. unfold bind. specialize (Hm w).
  destruct (m w) as [[a|e] w1]; cbn [snd] in *; [|exact Hm].
  now rewrite (Hk a w1).
Qed.

Lemma keeps_try_except {A} (m handler : exec A) :
  keeps_file q m -> keeps_file q handler -> keeps_file q (try_except m handler).
Proof.
  intros Hm Hh w. unfold try_except. specialize (Hm w).
  destruct (m w) as [[a|e] w1]; cbn [snd] in *; [exact Hm|].
  now rewrite (Hh w1).
Qed.

Lemma keeps_open_a (p : string) : keeps_file q (open_a p).
Proof. intros w. unfold open_a. cbn [snd fs]. apply content_touch. Qed.

Lemma keeps_open_w (p : string) : p <> q -> keeps_file q (open_w p).
Proof.
  intros Hne w. unfold open_w, content. cbn [snd fs].
  now rewrite lookup_insert_ne.
Qed.

Lemma keeps_write (p : string) (m : mode) (text : string) :
  p <> q -> keeps_file q (write p m text).
Proof.
  intros Hne w. unfold write. cbn [snd fs].
  fold (append_to p text (fs w)). now apply content_append_other.
Qed.

Lemma keeps_log h self (level message : string) :
  q <> log_path self -> keeps_file q (log h self level message).
Proof.
  intros Hne w. rewrite log_run. cbn [snd fs].
  now apply content_log_store_other.
Qed.

Lemma keeps_write_channels (p : string) (fans : gmap string string)
  (channels : list string) :
  p <> q -> keeps_file q (write_channels p fans channels).
Proof.
  intros Hne. induction channels as [|ch channels IH]; cbn [write_channels].
  - now apply keeps_unchanged.
  - apply keeps_bind; [now apply keeps_write|intros _; exact IH].
Qed.

Lemma keeps_tick h self (output_dir : string) (interval : Z) env :
  ~ In q [cpu_path output_dir; fan_path output_dir; mem_path output_dir;
          log_path self] ->
  keeps_file q (tick h self output_dir interval env).
Proof.
  intros Hq. cbn [In] in Hq.
  unfold tick, fan_step, check_output_decode.
  repeat first
    [ apply keeps_try_except
    | apply keeps_log
    | apply keeps_bind; [|intros ?]
    | apply keeps_write_channels
    | apply keeps_open_a
    | apply keeps_write
    | apply keeps_unchanged; reflexivity ]; intuition congruence.
Qed.

Lemma keeps_sampling_loop h self (output_dir : string) (interval : Z)
  (ticks : list (tick_env F)) w :
  ~ In q [cpu_path output_dir; fan_path output_dir; mem_path output_dir;
          log_path self] ->
  content (fs (sampling_loop h self output_dir interval ticks w).2) q =
  content (fs w) q.
Proof.
  intros Hq. revert w. induction ticks as [|env ticks IH]; intros w;
    cbn [sampling_loop]; [reflexivity|].
  pose proof (keeps_tick h self output_dir interval env Hq w) as Ht.
  destruct (tick h self output_dir interval env w) as [[[]|e] w1];
    cbn [snd] in *; [|exact Ht].
  now rewrite IH.
Qed.

End Keeps.

(** X16: whatever happens during a run, the sampler opens and writes
    only cpu.csv, fan.csv, mem.csv and the log, creates only the output
    and the log directory, launches no tool other than the sensor tool and
    sleeps only for the interval it was given; the content of every other
    file is left as it was. *)
Theorem sampler_touches_only_its_files h self (output_dir : string)
  (interval : Z) (ticks : list (tick_env F)) w :
  let final := (monitor_system h self output_dir interval ticks w).2 in
  (exists t,
      trace final = trace w ++ t /\
      Forall (sampler_event self output_dir interval) t)
  /\ (forall q,
        ~ In q [cpu_path output_dir; fan_path output_dir;
                mem_path output_dir; log_path self] ->
        content (fs final) q = content (fs w) q).
Proof.
  cbv zeta. unfold monitor_system.
  destruct (emits_create_sinks_own h self output_dir interval w)
    as (t0 & Ht0 & HP0).
  assert (Hk0 : forall q,
    ~ In q [cpu_path output_dir; fan_path output_dir;
            mem_path output_dir; log_path self] ->
    content (fs (create_sinks h output_dir w).2) q = content (fs w) q).
  { intros q Hq. cbn [In] in Hq.
    destruct (create_sinks_cases h output_dir w)
      as [[_ Hrun]|[_ [e [Hrun|[Hrun|Hrun]]]]];
      cbv zeta in Hrun; rewrite Hrun; cbn [snd fs]; unfold content;
      now rewrite ?lookup_insert_ne by intuition congruence. }
  destruct (create_sinks h output_dir w) as [[[]|e] w1]; cbn [snd] in *;
    [|split; [eauto|exact Hk0]].
  destruct (sampling_loop_emits_all (sampler_event self output_dir interval)
              h self output_dir interval
              (emits_tick_own h self output_dir interval) ticks w1)
    as (t1 & Ht1 & HP1).
  pose proof (fun q Hq =>
    keeps_sampling_loop q h self output_dir interval ticks w1 Hq) as Hk1.
  destruct (sampling_loop h self output_dir interval ticks w1)
    as [[e|] w2]; cbn [snd] in *.
  - assert (Hplain :
      (exists t, trace w2 = trace w ++ t /\
                 Forall (sampler_event self output_dir interval) t) /\
      (forall q,
          ~ In q [cpu_path output_dir; fan_path output_dir;
                  mem_path output_dir; log_path self] ->
          content (fs w2) q = content (fs w) q)).
    { split.
      - exists (t0 ++ t1). rewrite Ht1, Ht0, app_assoc.
        split; [reflexivity|]. now apply Forall_app.
      - intros q Hq. now rewrite Hk1, Hk0. }
    destruct e; cbn [snd]; try exact Hplain.
    rewrite log_run. cbn [snd fs trace]. split.
    + exists (t0 ++ t1 ++ log_events self (strftime_now h (clock w2)) "INFO"
                "Monitoring stopped").
      rewrite Ht1, Ht0, <- !app_assoc. split; [reflexivity|].
      rewrite !Forall_app. auto using log_events_own.
    + intros q Hq. rewrite content_log_store_other
        by (cbn [In] in Hq; intuition congruence).
      now rewrite Hk1, Hk0.
  - split.
    + exists (t0 ++ t1). rewrite Ht1, Ht0, app_assoc.
      split; [reflexivity|]. now apply Forall_app.
    + intros q Hq. now rewrite Hk1, Hk0.
Qed.

(** *** The sensor table *)

Lemma split_without_sep (sep : ascii) (s : string) :
  Py.contains (String sep "") s = false -> Py.split sep s = [s].
Proof.
  induction s as [|a s IH]; [reflexivity|].
  rewrite PyFacts.contains_single_cons. cbn [Py.split].
  destruct (ascii_dec sep a) as [->|Hne]; [discriminate|].
  rewrite orb_false_l. intros Hs. rewrite (IH Hs).
  destruct (Ascii.eqb_spec a sep); [congruence|reflexivity].
Qed.

(** A line that mentions FAN and RPM but has no column separator stops
    the parse, wherever it stands. *)
Lemma parse_fans_torn_line (lines : list string) (fans : gmap string string)
  (line : string) :
  In line lines ->
  Py.contains "FAN" line = true -> Py.contains "RPM" line = true ->
  Py.contains "|" line = false ->
  exists e, parse_fans lines fans = Raise e.
Proof.
  intros Hin Hfan Hrpm Hbar. revert fans.
  induction lines as [|l lines IH]; intros fans; [destruct Hin|].
  cbn [parse_fans]. destruct Hin as [->|Hin].
  - rewrite Hfan, Hrpm. cbn [andb].
    rewrite (split_without_sep _ _ Hbar). cbn. eauto.
  - destruct (Py.contains "FAN" l && Py.contains "RPM" l); [|now apply IH].
    destruct (item (Py.split "|" l) 0) as [c0|e]; cbn [obind]; [|eauto].
    destruct (item (Py.split "|" l) 1) as [c1|e]; cbn [obind]; [|eauto].
    destruct (item (Py.words (Py.strip c1)) 0) as [r|e]; cbn [obind];
      [|eauto].
    now apply IH.
Qed.

(** X17: one sensor line that mentions FAN and RPM but lost its column
    separator spoils the whole table: whatever the other lines say, that
    iteration appends no fan row and logs the fan warning. *)
Theorem torn_sensor_line_drops_fan_row h self (output_dir : string)
  (interval : Z) env w (c : cpu_sample F) (m : mem_sample)
  (fan_output line : string) :
  cpu_times_percent env = Ret c ->
  virtual_memory env = Ret m ->
  decoded_output h (ipmitool env) = Ret fan_output ->
  In line (Py.split Py.LF fan_output) ->
  Py.contains "FAN" line = true ->
  Py.contains "RPM" line = true ->
  Py.contains "|" line = false ->
  let ts := strftime_now h (clock w) in
  let w' := (tick h self output_dir interval env w).2 in
  content (fs w') (fan_path output_dir) = content (fs w) (fan_path output_dir)
  /\ trace w' =
     trace w ++
     [EvOpen (cpu_path output_dir) ModeA;
      EvWrite (cpu_path output_dir) ModeA (cpu_row ts c);
      EvOpen (mem_path output_dir) ModeA;
      EvWrite (mem_path output_dir) ModeA (mem_row ts m);
      EvExec ipmitool_cmd] ++
     log_events self (strftime_now h (S (clock w))) "WARNING"
       "Failed to get fan information" ++
     [EvSleep interval].
Proof.
  intros Hc Hm Hout Hin Hfan Hrpm Hbar. cbv zeta.
  destruct (parse_fans_torn_line _ ∅ _ Hin Hfan Hrpm Hbar) as [e He].
  rewrite (tick_fail h self output_dir interval env w c m Hc Hm)
    by (right; eauto).
  cbn [snd fs trace]. split; [|reflexivity].
  destruct (sink_paths_distinct output_dir) as (Hcf & Hcm & Hfm).
  destruct (log_path_not_sink self output_dir) as (Hlc & Hlf & Hlm).
  now read_content.
Qed.

Lemma parse_fans_app (l1 l2 : list string) (fans : gmap string string) :
  parse_fans (l1 ++ l2) fans =
  obind (parse_fans l1 fans) (parse_fans l2).
Proof.
  revert fans. induction l1 as [|l l1 IH]; intros fans; [reflexivity|].
  cbn [app parse_fans].
  destruct (Py.contains "FAN" l && Py.contains "RPM" l); [|apply IH].
  destruct (item (Py.split "|" l) 0) as [c0|e]; cbn [obind]; [|reflexivity].
  destruct (item (Py.split "|" l) 1) as [c1|e]; cbn [obind]; [|reflexivity].
  destruct (item (Py.words (Py.strip c1)) 0) as [r|e]; cbn [obind];
    [|reflexivity].
  apply IH.
Qed.

(** X18: when the table reports a channel more than once the last line
    wins: a further well-formed line replaces what was read for its
    channel and changes nothing for any other channel. *)
Theorem last_sensor_line_wins (lines : list string)
  (fans : gmap string string) (line name_field rpm_field rpm : string) :
  parse_fans lines ∅ = Ret fans ->
  Py.contains "FAN" line = true ->
  Py.contains "RPM" line = true ->
  item (Py.split "|"%char line) 0 = Ret name_field ->
  item (Py.split "|"%char line) 1 = Ret rpm_field ->
  item (Py.words (Py.strip rpm_field)) 0 = Ret rpm ->
  exists fans',
    parse_fans (lines ++ [line]) ∅ = Ret fans'
    /\ fans_get fans' (Py.strip name_field) = rpm
    /\ (forall ch, ch <> Py.strip name_field ->
          fans_get fans' ch = fans_get fans ch).
Proof.
  intros Hparse Hfan Hrpm H0 H1 Hw.
  rewrite parse_fans_app, Hparse. cbn [obind parse_fans].
  rewrite Hfan, Hrpm, H0. cbn [andb obind]. rewrite H1. cbn [obind].
  rewrite Hw. cbn [obind]. eexists. split; [reflexivity|].
  unfold fans_get. split.
  - now rewrite lookup_insert_eq.
  - intros ch Hch. now rewrite lookup_insert_ne.
Qed.

End SamplerMore.

(** ** The further statements at work on the sample machines *)

Lemma cpu_capture_fault_witness :
  (monitor_system stock_host (init "/opt/pkit") "/tmp/out" 10
     ([good_tick] ++ cpu_fault_tick :: [good_tick]) w0).1
  = Some (Raise OSError).
Proof.
  destruct (cpu_capture_fault stock_host (init "/opt/pkit") "/tmp/out" 10
              [good_tick] [good_tick] cpu_fault_tick w0 OSError)
    as [Hfault _].
  - split; [discriminate|]. repeat split.
  - repeat constructor; eexists; reflexivity.
  - reflexivity.
  - apply Hfault. discriminate.
Defined.

Lemma memory_capture_fault_witness :
  (monitor_system stock_host (init "/opt/pkit") "/tmp/out" 10
     ([good_tick] ++ mem_fault_tick :: [good_tick]) w0).1
  = Some (Raise OSError).
Proof.
  destruct (memory_capture_fault stock_host (init "/opt/pkit") "/tmp/out" 10
              [good_tick] [good_tick] mem_fault_tick w0
              {| user := 3%Z; system := 1%Z; idle := 96%Z |} OSError)
    as [Hfault _].
  - split; [discriminate|]. repeat split.
  - repeat constructor; eexists; reflexivity.
  - reflexivity.
  - reflexivity.
  - discriminate.
  - exact Hfault.
Defined.

Lemma stop_signal_in_fan_step_witness :
  sampling_loop stock_host (init "/opt/pkit") "/tmp/out" 10
    (signal_in_fan_tick :: [good_tick]) w0 =
  sampling_loop stock_host (init "/opt/pkit") "/tmp/out" 10 [good_tick]
    (tick stock_host (init "/opt/pkit") "/tmp/out" 10 signal_in_fan_tick w0).2.
Proof.
  destruct (stop_signal_in_fan_step stock_host (init "/opt/pkit") "/tmp/out"
              10 signal_in_fan_tick [good_tick] w0
              {| user := 3%Z; system := 1%Z; idle := 96%Z |}
              {| total := 8589934592; used := 2147483648;
                 free := 4294967296; shared := 0;
                 buffers := 1048576; cached := 1048576;
                 available := 6442450944 |}%Z)
    as (_ & _ & Hloop);
    [reflexivity|reflexivity|reflexivity|reflexivity|exact Hloop].
Defined.

Lemma row_counts_witness :
  (monitor_system stock_host (init "/opt/pkit") "/tmp/out" 10
     [good_tick; no_fan_tick; good_tick] w0).1 = None.
Proof.
  destruct (row_counts stock_host (init "/opt/pkit") "/tmp/out" 10
              [good_tick; no_fan_tick; good_tick] w0) as [Hrun _].
  - split; [discriminate|]. repeat split.
  - repeat constructor; eexists; reflexivity.
  - exact Hrun.
Defined.

Lemma torn_sensor_line_drops_fan_row_witness :
  content
    (fs (tick stock_host (init "/opt/pkit") "/tmp/out" 10 torn_table_tick
           w0).2) (fan_path "/tmp/out")
  = content (fs w0) (fan_path "/tmp/out").
Proof.
  destruct (torn_sensor_line_drops_fan_row stock_host (init "/opt/pkit")
              "/tmp/out" 10 torn_table_tick w0
              {| user := 3%Z; system := 1%Z; idle := 96%Z |}
              {| total := 8589934592; used := 2147483648;
                 free := 4294967296; shared := 0;
                 buffers := 1048576; cached := 1048576;
                 available := 6442450944 |}%Z
              ("FAN1 | 4200 RPM | ok" +:+ Py.nl +:+
               "FAN2 4300 RPM ok" +:+ Py.nl)
              "FAN2 4300 RPM ok") as [Hfan _];
    [reflexivity|reflexivity|reflexivity|right; left; reflexivity
    |reflexivity|reflexivity|reflexivity|exact Hfan].
Defined.

Lemma last_sensor_line_wins_witness :
  exists fans',
    parse_fans (["FAN1 | 4200 RPM | ok"] ++ ["FAN1 | 5100 RPM | ok"]) ∅
    = Ret fans'
    /\ fans_get fans' (Py.strip "FAN1 ") = "5100"
    /\ (forall ch, ch <> Py.strip "FAN1 " ->
          fans_get fans' ch = fans_get (<["FAN1" := "4200"]> ∅) ch).
Proof.
  apply (last_sensor_line_wins ["FAN1 | 4200 RPM | ok"]
           (<["FAN1" := "4200"]> ∅) "FAN1 | 5100 RPM | ok"
           "FAN1 " " 5100 RPM "); reflexivity.
Defined.

(** ** Where the log lives *)
Section LogLocation.

Lemma no_sep_cons (a : ascii) (s : string) :
  Py.contains "/" (String a s) = false ->
  a <> "/"%char /\ Py.contains "/" s = false.
Proof.
  rewrite PyFacts.contains_single_cons.
  destruct (ascii_dec "/" a) as [<-|Hne]; [discriminate|].
  rewrite orb_false_l. split; congruence.
Qed.

Lemma upto_last_sep_plain (b : string) :
  Py.contains "/" b = false -> upto_last_sep b = "".
Proof.
  destruct b as [|a b]; [reflexivity|]. intros Hb.
  destruct (no_sep_cons _ _ Hb) as [Ha Hb']. cbn [upto_last_sep].
  rewrite Hb'. destruct (Ascii.eqb_spec a "/"); [congruence|reflexivity].
Qed.

Lemma upto_last_sep_app (a b : string) :
  Py.contains "/" b = false ->
  upto_last_sep (a +:+ "/" +:+ b) = a +:+ "/".
Proof.
  intros Hb. induction a as [|c a IH].
  - rewrite !PyFacts.str_app_empty_l. change ("/" +:+ b) with (String "/" b).
    cbn [upto_last_sep]. rewrite Hb, (upto_last_sep_plain b Hb). reflexivity.
  - rewrite PyFacts.str_app_cons. cbn [upto_last_sep]. rewrite IH.
    assert (Hc : Py.contains "/" (a +:+ "/" +:+ b) = true).
    { apply PyFacts.contains_iff. now exists a, b. }
    rewrite Hc. reflexivity.
Qed.

Lemma last_char_plain (s : string) (c : ascii) :
  Py.contains "/" s = false -> last_char s = Some c -> c <> "/"%char.
Proof.
  induction s as [|a s IH]; [discriminate|]. intros Hs.
  destruct (no_sep_cons _ _ Hs) as [Ha Hs']. cbn [last_char].
  destruct (last_char s) as [d|]; [now apply IH|]. intros [= <-]. exact Ha.
Qed.

Lemma strip_trailing_sep (a : string) (c : ascii) :
  last_char a = Some c -> c <> "/"%char ->
  rstrip_sep (a +:+ "/") = a /\ all_sep (a +:+ "/") = false /\
  Py.endswith a "/" = false.
Proof.
  revert c. induction a as [|x a IH]; [discriminate|]. intros c Hlast Hc.
  rewrite PyFacts.str_app_cons. cbn [rstrip_sep all_sep Py.endswith].
  destruct a as [|y a].
  - injection Hlast as ->. rewrite PyFacts.str_app_empty_l. cbn.
    destruct (Ascii.eqb_spec c "/"); [congruence|].
    repeat split.
  - assert (Hl : last_char (String y a) = Some c).
    { cbn [last_char] in Hlast |- *. now destruct (last_char a). }
    destruct (IH c Hl Hc) as (-> & -> & ->).
    rewrite andb_false_r, orb_false_r. repeat split.
    cbn [String.eqb]. now destruct (Ascii.eqb x "/").
Qed.

Lemma dirname_app (a b : string) (c : ascii) :
  last_char a = Some c -> c <> "/"%char ->
  Py.contains "/" b = false ->
  dirname (a +:+ "/" +:+ b) = a.
Proof.
  intros Hlast Hc Hb. unfold dirname. rewrite (upto_last_sep_app a b Hb).
  destruct (strip_trailing_sep a c Hlast Hc) as (-> & -> & _).
  destruct a; [discriminate|reflexivity].
Qed.

Lemma dirname_top (b : string) :
  Py.contains "/" b = false -> dirname ("/" +:+ b) = "/".
Proof.
  intros Hb. unfold dirname.
  rewrite <- (PyFacts.str_app_empty_l ("/" +:+ b)), (upto_last_sep_app "" b Hb).
  reflexivity.
Qed.

(** X19: the log does not depend on the working directory or on the
    output directory: for a module file root/pkg/file the monitor logs to
    root/logs/servertest.log (and to /logs/servertest.log when the package
    directory sits directly under the file system root). *)
Theorem log_location (root pkg file : string) (c d : ascii) :
  last_char pkg = Some d ->
  Py.contains "/" pkg = false ->
  Py.contains "/" file = false ->
  (last_char root = Some c -> c <> "/"%char ->
   let self := init_at (root +:+ "/" +:+ pkg +:+ "/" +:+ file) in
   script_dir self = root
   /\ logs_dir self = root +:+ "/logs"
   /\ log_path self = root +:+ "/logs/servertest.log")
  /\ (let self := init_at ("/" +:+ pkg +:+ "/" +:+ file) in
      script_dir self = "/"
      /\ logs_dir self = "/logs"
      /\ log_path self = "/logs/servertest.log").
Proof.
  intros Hpkg Hnp Hnf.
  pose proof (last_char_plain pkg d Hnp Hpkg) as Hd.
  assert (Hnonempty : pkg <> "") by (destruct pkg; [discriminate|congruence]).
  split.
  - intros Hroot Hc. cbv zeta. unfold init_at.
    assert (Hinner : dirname (root +:+ "/" +:+ pkg +:+ "/" +:+ file)
                     = root +:+ "/" +:+ pkg).
    { rewrite <- !(PyFacts.str_app_assoc root).
      rewrite <- (PyFacts.str_app_assoc (root +:+ "/") pkg).
      apply (dirname_app _ file d); [|exact Hd|exact Hnf].
      now rewrite last_char_app. }
    rewrite Hinner, (dirname_app root pkg c Hroot Hc Hnp).
    unfold init, log_path. cbn [script_dir logs_dir].
    destruct (strip_trailing_sep root c Hroot Hc) as (_ & _ & Hend).
    assert (Hjoin : Py.path_join root "logs" = root +:+ "/logs").
    { unfold Py.path_join. cbn [Py.startswith String.prefix].
      rewrite Hend. destruct root; [discriminate|reflexivity]. }
    rewrite Hjoin. split; [reflexivity|]. split; [reflexivity|].
    rewrite path_join_relative by reflexivity. unfold dir_prefix.
    assert (Hend' : Py.endswith (root +:+ "/logs") "/" = false).
    { apply (strip_trailing_sep _ "s"%char); [|discriminate].
      now rewrite last_char_app. }
    rewrite Hend'.
    destruct (String.eqb_spec (root +:+ "/logs") "") as [Heq|_].
    + destruct root; discriminate Heq.
    + cbn [orb]. now rewrite !PyFacts.str_app_assoc.
  - cbv zeta. unfold init_at.
    assert (Hinner : dirname ("/" +:+ pkg +:+ "/" +:+ file) = "/" +:+ pkg).
    { rewrite <- (PyFacts.str_app_assoc "/" pkg).
      apply (dirname_app _ file d); [|exact Hd|exact Hnf].
      now rewrite last_char_app. }
    rewrite Hinner, (dirname_top pkg Hnp). repeat split.
Qed.

Lemma log_location_witness :
  log_path (init_at ("/opt/pkit" +:+ "/" +:+ "pkit" +:+ "/" +:+ "core.py"))
  = "/opt/pkit" +:+ "/logs/servertest.log".
Proof.
  destruct (log_location "/opt/pkit" "pkit" "core.py" "t"%char "t"%char)
    as [Hat _]; [reflexivity|reflexivity|reflexivity|].
  apply Hat; [reflexivity|discriminate].
Defined.

End LogLocation.

(** ** Mount state of nested paths *)

Lemma contains_trans (a b c : string) :
  Py.contains a b = true -> Py.contains b c = true -> Py.contains a c = true.
Proof.
  intros Hab Hbc.
  apply PyFacts.contains_iff in Hab as (p1 & q1 & ->).
  apply PyFacts.contains_iff in Hbc as (p2 & q2 & ->).
  apply PyFacts.contains_iff. exists (p2 +:+ p1), (q1 +:+ q2).
  now rewrite !PyFacts.str_app_assoc.
Qed.

(** X20: on one machine, whenever a path is reported mounted, so is
    every path whose text occurs inside it: a mounted partition makes its
    disk, and any other device whose name it contains, mounted too. *)
Theorem mounted_of_contained_path (h : host) (inner outer : string)
  (w1 w1' w2 w2' : world) (info_inner info_outer : DeviceInfo) :
  get_disk_info h inner w1 = (Ret (Some info_inner), w1') ->
  get_disk_info h outer w2 = (Ret (Some info_outer), w2') ->
  Py.contains inner outer = true ->
  mounted info_outer = true ->
  mounted info_inner = true.
Proof.
  intros Hin Hout Hsub Hm.
  destruct (get_disk_info_some_inv _ _ _ _ _ Hin)
    as (b1 & l1 & m1 & _ & _ & _ & Hl1 & _ & ->).
  destruct (get_disk_info_some_inv _ _ _ _ _ Hout)
    as (b2 & l2 & m2 & _ & _ & _ & Hl2 & _ & ->).
  rewrite Hl1 in Hl2. injection Hl2 as <-. cbn [mounted] in *.
  apply existsb_exists in Hm as (line & Hline & Hc).
  apply existsb_exists. exists line. split; [exact Hline|].
  exact (contains_trans _ _ _ Hsub Hc).
Qed.

Lemma mounted_of_contained_path_witness :
  mounted {| size := 0; mounted := true; model := ""; device := "/dev/sdc" |}
  = true.
Proof.
  apply (mounted_of_contained_path odd_host "/dev/sdc" "/dev/sdc1"
           w0 (World ∅ [EvExec (hdparm_cmd "/dev/sdc")] 0)
           w0 (World ∅ [EvExec (hdparm_cmd "/dev/sdc1")] 0)
           {| size := 0; mounted := true; model := ""; device := "/dev/sdc" |}
           {| size := 0; mounted := true; model := "";
              device := "/dev/sdc1" |}); reflexivity.
Defined.
